(** * ESG query and report application (app3.py)

    A shallow embedding of the three core functions of [app3.py],
    [get_company_by_selection], [generate_esg_analysis] and
    [generate_pdf_report], and of the detail table of
    [display_company_details], together with the Python primitives
    they rely on, followed by the properties of the specification that
    concern them and by further properties read off the code.

    Conventions of the embedding:
    - a Python [str] is the list of its code points ([str]); literals
      are written as UTF-8 text and decoded by [u8];
    - a Python [int] is a [Z]; a Python [float] is the rational it
      denotes ([Q]), every arithmetic result being rounded to binary64
      by [Float64.round64];
    - [st.warning]/[st.error] append to the message log of the
      [World]; [pd.Timestamp.now()] reads its clock; exceptions are an
      explicit outcome. *)

From Stdlib Require Import List ZArith NArith QArith String Ascii Bool Lia
  Sorted.
Import ListNotations.

Local Open Scope Z_scope.

(* ================================================================== *)
(** * Python strings *)
(* ================================================================== *)

Module PyStr.

(** A [str]: the sequence of its Unicode code points. *)
Definition str := list N.

(** UTF-8 decoding of a literal, one byte at a time: [acc] holds the
    bits read so far of a multi-byte character, [k] the number of
    continuation bytes still expected. *)
Fixpoint utf8_decode (bs : list N) (acc : N) (k : nat) : str :=
  match bs with
  | [] => []
  | b :: r =>
      match k with
      | O =>
          if (b <? 128)%N then b :: utf8_decode r 0%N O
          else if (b <? 224)%N then utf8_decode r (N.land b 31) 1%nat
          else if (b <? 240)%N then utf8_decode r (N.land b 15) 2%nat
          else utf8_decode r (N.land b 7) 3%nat
      | S O => (acc * 64 + N.land b 63)%N :: utf8_decode r 0%N O
      | S k' => utf8_decode r (acc * 64 + N.land b 63)%N k'
      end
  end.

Definition u8 (s : string) : str :=
  utf8_decode (List.map N_of_ascii (list_ascii_of_string s)) 0%N O.

(** [a == b] on strings. *)
Fixpoint eqb (a b : str) : bool :=
  match a, b with
  | [], [] => true
  | x :: a', y :: b' => (x =? y)%N && eqb a' b'
  | _, _ => false
  end.

(** [s.startswith(p)]. *)
Fixpoint startswith (p s : str) : bool :=
  match p, s with
  | [], _ => true
  | x :: p', y :: s' => (x =? y)%N && startswith p' s'
  | _ :: _, [] => false
  end.

(** [sub in s]. *)
Fixpoint contains (sub s : str) : bool :=
  startswith sub s ||
  match s with
  | [] => false
  | _ :: s' => contains sub s'
  end.

(** [str.isspace] for one character; [\s] of [re] on [str] patterns
    tests the same set. *)
Definition isspace (c : N) : bool :=
  ((9 <=? c) && (c <=? 13) || (28 <=? c) && (c <=? 32) ||
   (c =? 133) || (c =? 160) || (c =? 5760) ||
   (8192 <=? c) && (c <=? 8202) || (c =? 8232) || (c =? 8233) ||
   (c =? 8239) || (c =? 8287) || (c =? 12288))%N.

Fixpoint lstrip (s : str) : str :=
  match s with
  | [] => []
  | c :: s' => if isspace c then lstrip s' else s
  end.

Definition rstrip (s : str) : str := rev (lstrip (rev s)).

(** [s.strip()]. *)
Definition strip (s : str) : str := rstrip (lstrip s).

(** [s.split(sep)] for a separator of one character. *)
Fixpoint split (sep : N) (s : str) : list str :=
  match s with
  | [] => [[]]
  | c :: s' =>
      if (c =? sep)%N then [] :: split sep s'
      else match split sep s' with
           | [] => [[c]]
           | w :: ws => (c :: w) :: ws
           end
  end.

(** [s.replace(old, new)] for a non-empty [old]: occurrences are
    replaced from left to right without overlap; [skip] counts the
    characters of an occurrence still to be dropped. *)
Fixpoint replace_from (old new s : str) (skip : nat) : str :=
  match s with
  | [] => []
  | c :: s' =>
      match skip with
      | S k => replace_from old new s' k
      | O =>
          if startswith old s
          then new ++ replace_from old new s' (Nat.pred (List.length old))
          else c :: replace_from old new s' O
      end
  end.

Definition replace (old new s : str) : str := replace_from old new s O.

(** Decimal digits of a positive number, least significant first;
    [fuel] bounds the number of digits. *)
Fixpoint digits_rev (fuel : nat) (n : Z) : str :=
  match fuel with
  | O => []
  | S f =>
      if n <? 10 then [Z.to_N (48 + n)]
      else Z.to_N (48 + n mod 10) :: digits_rev f (n / 10)
  end.

(** [str(n)] for an [int]. *)
Definition str_of_int (n : Z) : str :=
  if n <? 0
  then 45%N :: rev (digits_rev (S (Z.to_nat (Z.log2 (- n)))) (- n))
  else rev (digits_rev (S (Z.to_nat (Z.log2 n))) n).

Definition is_ascii_digit (c : N) : bool := ((48 <=? c) && (c <=? 57))%N.

(** [s.isdigit()]: non-empty and made of digits only.  The digits
    are the ASCII ones; a cell written with the digits of another
    script is outside the model. *)
Definition isdigit (s : str) : bool :=
  match s with
  | [] => false
  | _ => forallb is_ascii_digit s
  end.

(** Value of a run of ASCII digits, most significant first. *)
Definition int_of_digits (s : str) : Z :=
  fold_left (fun acc c => 10 * acc + (Z.of_N c - 48)) s 0.

End PyStr.

Import PyStr.

(* ================================================================== *)
(** * Python floats *)
(* ================================================================== *)

Module Float64.

(** [2^x] for an integer exponent is [up x / dn x]; one of the two is
    always 1. *)
Definition up (x : Z) : Z := 2 ^ Z.max 0 x.
Definition dn (x : Z) : Z := 2 ^ Z.max 0 (- x).

(** The integer nearest to [n / d], ties going to the even one
    ([0 < d]). *)
Definition round_half_even (n d : Z) : Z :=
  let q := n / d in
  match 2 * (n mod d) ?= d with
  | Lt => q
  | Gt => q + 1
  | Eq => if Z.even q then q else q + 1
  end.

(** The exponent [e] with [2^52 <= (n/d) / 2^e < 2^53], for a positive
    rational [n / d]. *)
Definition normal_exponent (n d : Z) : Z :=
  let e0 := Z.log2 n - Z.log2 d - 53 in
  if 2 ^ 53 * d * up e0 <=? n * dn e0 then e0 + 1 else e0.

(** The exponent of the binary64 format for [n / d]: subnormal numbers
    share the smallest one, [-1074]. *)
Definition exponent (n d : Z) : Z := Z.max (normal_exponent n d) (-1074).

(** The largest finite binary64 number. *)
Definition DBL_MAX : Z := (2 ^ 53 - 1) * 2 ^ 971.

(** The binary64 number nearest to [n / d] ([0 <= n], [0 < d]), as the
    rational it denotes; [None] when the rounded value is out of the
    range of the format. *)
Definition round64 (n d : Z) : option Q :=
  if n <=? 0 then Some 0%Q
  else
    let e := exponent n d in
    let m := round_half_even (n * dn e) (d * up e) in
    if 2 ^ 1024 <=? m * up e then None
    else Some (m * up e # Z.to_pos (dn e)).

(** [int(x)]: truncation towards zero. *)
Definition int_of_float (x : Q) : Z := Z.quot (Qnum x) (Zpos (Qden x)).

(** [format(x, '.1f')] for [0 <= x]: the exact value rounded to one
    decimal, ties to even. *)
Definition format_1f (x : Q) : str :=
  let t := round_half_even (10 * Qnum x) (Zpos (Qden x)) in
  str_of_int (t / 10) ++ [46%N] ++ str_of_int (t mod 10).

End Float64.

(* ================================================================== *)
(** * Data: cells, rows and the loaded dataset *)
(* ================================================================== *)

(** The value of one cell of the table, as [Series.get] hands it over. *)
Inductive pyval : Type :=
| PyNone
| PyNaN
| PyInt (z : Z)
| PyFloat (x : Q)
| PyStr (s : str).

(** One row of [df].  [load_data] guarantees the three text columns
    (证券代码, 证券简称, 上市日期), all of type [str]; the remaining
    columns are kept by name. *)
Record Row : Type := mkRow {
  stock_code : str;
  stock_name : str;
  listing_date : str;
  cells : list (str * pyval)
}.

(** [row.get(col, default)] on the remaining columns. *)
Fixpoint get (cs : list (str * pyval)) (col : str) (default : pyval) : pyval :=
  match cs with
  | [] => default
  | (k, v) :: cs' => if PyStr.eqb k col then v else get cs' col default
  end.

(** Column 企业展示名称, computed by [load_data] as
    [df['证券简称'] + "（" + df['证券代码'] + "）"]. *)
Definition show_name (r : Row) : str :=
  stock_name r ++ u8 "（" ++ stock_code r ++ u8 "）".

(** The module-level names bound by
    [df, years, rating_columns, quant_columns, company_list = load_data()]. *)
Record Loaded : Type := mkLoaded {
  df : list Row;
  years : list Z;
  rating_columns : list str;
  quant_columns : list str;
  company_list : list str
}.

(** [list(range(2009, 2021))], the years of the regular path of
    [load_data]; its emergency path returns [[2020]]. *)
Definition years_regular : list Z := List.map Z.of_nat (seq 2009 12).
Definition years_emergency : list Z := [2020].

(* ================================================================== *)
(** * Effects: messages, clock and exceptions *)
(* ================================================================== *)

Inductive severity : Type := Warning | Error.

Record World : Type := mkWorld {
  messages : list (severity * str);   (* what [st.warning]/[st.error] showed, oldest first *)
  clock : str                      (* [pd.Timestamp.now().strftime('%Y-%m-%d %H:%M:%S')] *)
}.

Inductive exn_kind : Type := IndexError | ValueError | OverflowError | OtherError.

Record exn : Type := mkExn { kind : exn_kind; exn_msg : str }.

Inductive outcome (A : Type) : Type :=
| Returned (a : A)
| Raised (e : exn).
Arguments Returned {A} a.
Arguments Raised {A} e.

(** A computation reads and extends the world and returns or raises. *)
Definition M (A : Type) : Type := World -> outcome A * World.

Definition ret {A} (a : A) : M A := fun w => (Returned a, w).

Definition raise {A} (e : exn) : M A := fun w => (Raised e, w).

Definition bind {A B} (c : M A) (k : A -> M B) : M B :=
  fun w =>
    match c w with
    | (Returned a, w') => k a w'
    | (Raised e, w') => (Raised e, w')
    end.

(** [try: c  except Exception as e: h e]. *)
Definition try_except {A} (c : M A) (h : exn -> M A) : M A :=
  fun w =>
    match c w with
    | (Returned a, w') => (Returned a, w')
    | (Raised e, w') => h e w'
    end.

Definition st_message (l : severity) (text : str) : M unit :=
  fun w => (Returned tt, mkWorld (messages w ++ [(l, text)]) (clock w)).

Definition st_warning := st_message Warning.
Definition st_error := st_message Error.

Definition timestamp_now : M str := fun w => (Returned (clock w), w).

Notation "x <- c ;; k" := (bind c (fun x => k))
  (at level 61, c at next level, right associativity).
Notation "c ;;; k" := (bind c (fun _ => k))
  (at level 61, right associativity).

(** [s.iloc[0]]. *)
Definition iloc0 (rows : list Row) : M Row :=
  match rows with
  | r :: _ => ret r
  | [] => raise (mkExn IndexError (u8 "single positional indexer is out-of-bounds"))
  end.

(* ================================================================== *)
(** * Record lookup: [get_company_by_selection] *)
(* ================================================================== *)

Definition bracket_open : N := 65288.    (* （ *)
Definition bracket_close : N := 65289.   (* ） *)
Definition newline : N := 10.

(** The lazy group [(.*?)] of the pattern [（(.*?)）], read from the
    character after an opening bracket: it ends at the first closing
    bracket, and fails at a line break, which [.] does not match. *)
Fixpoint group_until_close (s : str) : option str :=
  match s with
  | [] => None
  | c :: s' =>
      if (c =? bracket_close)%N then Some []
      else if (c =? newline)%N then None
      else option_map (cons c) (group_until_close s')
  end.

(** [re.search(r'（(.*?)）', s)], giving [group(1)] of the leftmost
    match. *)
Fixpoint re_search_bracket (s : str) : option str :=
  match s with
  | [] => None
  | c :: s' =>
      if (c =? bracket_open)%N
      then match group_until_close s' with
           | Some code => Some code
           | None => re_search_bracket s'
           end
      else re_search_bracket s'
  end.

Definition is_empty {A} (l : list A) : bool :=
  match l with [] => true | _ => false end.

Definition no_selection : str := u8 "请选择企业".

Section Lookup.

Context (g : Loaded).

(** Lines 205-226, the body of the [try]. *)
Definition lookup_body (selected_company_name : str) : M (option Row) :=
  let company_data :=
    match re_search_bracket selected_company_name with
    | Some code =>
        filter (fun r => PyStr.eqb (stock_code r) code) (df g)
    | None =>
        let name := hd [] (split bracket_open selected_company_name) in
        filter (fun r => PyStr.eqb (stock_name r) name) (df g)
    end in
  let company_data :=
    if is_empty company_data
    then filter (fun r => PyStr.eqb (show_name r) selected_company_name) (df g)
    else company_data in
  company_data <-
    (if is_empty company_data
     then st_warning (u8 "[表情] 未找到" ++ selected_company_name
                      ++ u8 "的精确数据，使用第一条数据") ;;;
          ret (firstn 1 (df g))
     else ret company_data) ;;
  r <- iloc0 company_data ;;
  ret (Some r).

Definition get_company_by_selection (selected_company_name : option str)
  : M (option Row) :=
  try_except
    match selected_company_name with
    | None => ret None
    | Some s =>
        if is_empty s || PyStr.eqb s no_selection then ret None
        else lookup_body s
    end
    (fun e =>
       st_error (u8 "[表情] 查询出错：" ++ exn_msg e) ;;;
       r <- iloc0 (df g) ;;
       ret (Some r)).

End Lookup.

(* ================================================================== *)
(** * Metrics and narrative: [generate_esg_analysis] *)
(* ================================================================== *)

(** [int(x)] of the float produced by [float(...)]; an infinite float
    makes [int] raise, which the inner [except] turns into 0. *)
Definition int_or_zero (x : option Q) : Z :=
  match x with
  | Some q => Float64.int_of_float q
  | None => 0
  end.

(** Line 416 for a text cell: after removing the dots the text must be
    all digits; [float] then accepts it when it has at most one dot. *)
Definition parse_text (s : str) : Z :=
  if isdigit (replace [46%N] [] s) then
    match split 46 s with
    | [ip] => int_or_zero (Float64.round64 (int_of_digits ip) 1)
    | [ip; fp] =>
        int_or_zero (Float64.round64 (int_of_digits (ip ++ fp))
                                     (10 ^ Z.of_nat (List.length fp)))
    | _ => 0
    end
  else 0.

(** Lines 415-418:
    [int(float(quant_val)) if str(quant_val).replace('.','').isdigit() else 0],
    any exception giving 0.  [str] of a float is made of digits and
    one dot exactly when the float is zero or lies in [1e-4, 1e16);
    ['None'], ['nan'] and a negative number fail the digit test. *)
Definition parse_quant (quant_val : pyval) : Z :=
  match quant_val with
  | PyNone => 0
  | PyNaN => 0
  | PyInt z => if 0 <=? z then int_or_zero (Float64.round64 z 1) else 0
  | PyFloat x =>
      if (Qeq_bool x 0 || Qle_bool (1 # 10000) x)
         && negb (Qle_bool (inject_Z (10 ^ 16)) x)
      then Float64.int_of_float x
      else 0
  | PyStr s => parse_text s
  end.

(** One element of [esg_data] (keys 年份, 评级, 量化值). *)
Record esg_item : Type := mkItem {
  item_year : Z;
  item_rating : pyval;
  item_quant : Z
}.

(** [latest_year] is an [int] taken from [esg_data] or the text
    ['2020']. *)
Inductive year_value : Type :=
| YearInt (y : Z)
| YearStr (s : str).

Definition format_year (y : year_value) : str :=
  match y with
  | YearInt n => str_of_int n
  | YearStr s => s
  end.

Record metrics : Type := mkMetrics {
  avg_value : Q;
  max_value : Z;
  min_value : Z;
  latest_value : Z;
  latest_year : year_value;
  trend : str
}.

Definition Stable : str := u8 "稳定".
Definition Rising : str := u8 "上升".
Definition Falling : str := u8 "下降".

Definition Excellent : str := u8 "优秀".
Definition Good : str := u8 "良好".
Definition Moderate : str := u8 "中等".
Definition NeedsImprovement : str := u8 "待提升".

(** [level], [foundation] and [cycle] of lines 451-467. *)
Record level_info : Type := mkLevel {
  level : str;
  foundation : str;
  cycle : str
}.

Definition py_sum (l : list Z) : Z := fold_left Z.add l 0.

(** [max(l)] and [min(l)] of a list with head [x] and tail [r]. *)
Definition py_max (x : Z) (r : list Z) : Z := fold_left Z.max r x.
Definition py_min (x : Z) (r : list Z) : Z := fold_left Z.min r x.

(** [a / b] on positive [int]s: the quotient rounded to binary64. *)
Definition truediv (a b : Z) : M Q :=
  match Float64.round64 a b with
  | Some q => ret q
  | None =>
      raise (mkExn OverflowError
                   (u8 "integer division result too large for a float"))
  end.

Definition fallback_metrics : metrics :=
  mkMetrics 3 4 2 3 (YearStr (u8 "2020")) Stable.

(** Lines 427-449. *)
Definition core_metrics (esg_data : list esg_item) : M metrics :=
  match esg_data with
  | _ :: _ =>
      let quant_values :=
        filter (fun v => 0 <? v) (List.map item_quant esg_data) in
      let latest := last esg_data (mkItem 0 PyNone 0) in
      avg <- match quant_values with
             | [] => ret 3%Q
             | _ => truediv (py_sum quant_values)
                            (Z.of_nat (List.length quant_values))
             end ;;
      ret (mkMetrics
             avg
             match quant_values with [] => 4 | x :: r => py_max x r end
             match quant_values with [] => 2 | x :: r => py_min x r end
             (item_quant latest)
             (YearInt (item_year latest))
             (if 3 <=? Z.of_nat (List.length quant_values)
              then if hd 0 quant_values <? last quant_values 0 then Rising
                   else if last quant_values 0 <? hd 0 quant_values then Falling
                   else Stable
              else Stable))
  | [] => ret fallback_metrics
  end.

(** Lines 451-467. *)
Definition level_of (avg : Q) : level_info :=
  if Qle_bool 5 avg then mkLevel Excellent (u8 "雄厚") (u8 "6-12个月")
  else if Qle_bool 4 avg then mkLevel Good (u8 "较强") (u8 "12-24个月")
  else if Qle_bool 3 avg then mkLevel Moderate (u8 "一般") (u8 "12-24个月")
  else mkLevel NeedsImprovement (u8 "薄弱") (u8 "24-36个月").

(** The conditional expression of section 3.1 of the report. *)
Definition strategy (level : str) : str :=
  if PyStr.eqb level Excellent
  then u8 "作为ESG优秀企业，建议打造行业数字化标杆，建立ESG数据中台和AI风险预警系统。"
  else if PyStr.eqb level Good
  then u8 "作为ESG良好企业，建议优化数据采集流程，建立可视化管理看板，提升数字化能力。"
  else if PyStr.eqb level Moderate
  then u8 "作为ESG中等企业，建议夯实数据基础，部署标准化管理软件，分阶段推进转型。"
  else u8 "作为ESG待提升企业，建议先解决数据缺失问题，引入轻量化工具，逐步提升管理水平。".

Section Analysis.

Context (g : Loaded).

(** [next((col for col in columns if str(year) in col), None)]. *)
Definition column_of_year (columns : list str) (year : Z) : option str :=
  find (fun col => contains (str_of_int year) col) columns.

(** Lines 407-424: one item for every year of [years] that has both a
    rating column and a quantified-value column. *)
Definition year_item (company_data : Row) (year : Z) : list esg_item :=
  match column_of_year (rating_columns g) year,
        column_of_year (quant_columns g) year with
  | Some rating_col, Some quant_col =>
      if negb (is_empty rating_col) && negb (is_empty quant_col)
      then [mkItem year
                   (get (cells company_data) rating_col (PyStr (u8 "无评级")))
                   (parse_quant (get (cells company_data) quant_col (PyInt 0)))]
      else []
  | _, _ => []
  end.

Definition esg_data (company_data : Row) : list esg_item :=
  flat_map (year_item company_data) (years g).

(** The values of [quant_values] on line 428. *)
Definition quant_values (company_data : Row) : list Z :=
  filter (fun v => 0 <? v) (List.map item_quant (esg_data company_data)).

(** The metrics part of [generate_esg_analysis] (lines 407-449). *)
Definition compute (company_data : Row) : M metrics :=
  core_metrics (esg_data company_data).

(** Lines 470-515. *)
Definition report (stock_name stock_code listing_date : str)
                  (m : metrics) (lv : level_info) : str :=
  u8 "# " ++
  stock_name ++
  u8 "(" ++
  stock_code ++
  u8 ") ESG数字化转型分析报告

## 一、企业基础信息
- **企业名称**: " ++
  stock_name ++
  u8 "
- **证券代码**: " ++
  stock_code ++
  u8 "
- **上市日期**: " ++
  listing_date ++
  u8 "
- **数据覆盖**: 2009-2020年ESG评级数据

## 二、ESG表现综合评估
### 2.1 整体水平
" ++
  stock_name ++
  u8 "的ESG量化值平均为" ++
  Float64.format_1f (avg_value m) ++
  u8 "分（满分6分），在行业中属于" ++
  level lv ++
  u8 "水平，具备" ++
  foundation lv ++
  u8 "的可持续发展基础。

### 2.2 关键指标
- **平均量化值**: " ++
  Float64.format_1f (avg_value m) ++
  u8 "分
- **最高量化值**: " ++
  str_of_int (max_value m) ++
  u8 "分
- **最低量化值**: " ++
  str_of_int (min_value m) ++
  u8 "分
- **最新量化值**: " ++
  str_of_int (latest_value m) ++
  u8 "分（" ++
  format_year (latest_year m) ++
  u8 "年）
- **发展趋势**: " ++
  trend m ++
  u8 "趋势

## 三、数字化转型战略建议
### 3.1 战略定位
" ++
  strategy (level lv) ++
  u8 "

### 3.2 实施路径
1. **准备阶段**（1-3个月）：现状调研、需求分析、方案设计
2. **实施阶段**（3-12个月）：系统部署、数据迁移、人员培训
3. **优化阶段**（12-24个月）：效果评估、持续改进

## 四、风险提示与预期效益
### 4.1 主要风险
1. **技术风险**：系统选型不当导致兼容性问题
2. **数据风险**：数据质量不高影响分析结果
3. **落地风险**：员工数字化能力不足导致推进困难

### 4.2 预期效益
1. **效率提升**：ESG管理效率提升30%-50%
2. **质量改善**：数据准确性提升至95%以上
3. **决策支持**：为管理层提供数据驱动的决策依据
4. **评级提升**：预计" ++
  cycle lv ++
  u8 "内ESG评级提升1-2个等级

## 五、结论
" ++
  stock_name ++
  u8 "通过系统化的数字化转型，有望在" ++
  cycle lv ++
  u8 "内实现ESG管理水平的显著提升，为企业可持续发展奠定坚实基础。
".

(** Line 398. *)
Definition placeholder_report : str :=
  u8 "# 暂无企业数据

## 请选择企业后查看详细分析报告".

(** Lines 521-532, the text returned by the [except] branch. *)
Definition emergency_report (company_data : Row) : str :=
  u8 "# " ++ stock_name company_data ++ u8 " ESG分析报告

## 基础信息
- 证券代码：" ++ stock_code company_data ++ u8 "
- 上市日期：" ++ listing_date company_data ++ u8 "

## 核心结论
1. 企业ESG整体表现良好
2. 建议完善ESG数据采集体系
3. 数字化转型周期建议24-36个月
4. 预计转型后ESG管理效率提升30%以上
".

Definition generate_esg_analysis (company_data : option Row) : M str :=
  match company_data with
  | None => ret placeholder_report
  | Some row =>
      try_except
        (m <- compute row ;;
         ret (report (stock_name row) (stock_code row) (listing_date row)
                     m (level_of (avg_value m))))
        (fun e =>
           st_error (u8 "[表情] 报告生成出错：" ++ exn_msg e) ;;;
           ret (emergency_report row))
  end.

End Analysis.

(* ================================================================== *)
(** * Document rendering: [generate_pdf_report] *)
(* ================================================================== *)

Inductive page_size : Type := A4 | landscape_A4.

(** The arguments given to [SimpleDocTemplate]. *)
Record DocTemplate : Type := mkDoc {
  pagesize : page_size;
  margins : option Q;              (* the four margins, in inches *)
  title : option str;
  author : option str;
  subject : option str
}.

(** The arguments given to [ParagraphStyle]. *)
Record ParagraphStyle : Type := mkStyle {
  style_name : str;
  parent : option str;
  fontSize : Z;
  spaceAfter : option Z;
  leading : option Z;
  leftIndent : option Z;
  alignment : option Z;
  textColor : option str;
  fontName : str;
  bold : bool
}.

Inductive flowable : Type :=
| Para (text : str) (style : ParagraphStyle)
| Spacer (width height : Z)
| PageBreak.

(** What the program uses of reportlab and of the font set-up, neither
    being part of the program: [pdf_font] is the name chosen by
    [init_pdf_font]; [paragraph_error text style] is the exception
    raised by the constructor [Paragraph(text, style)], if any (it
    parses the mark-up of [text]); [doc_build doc elements] is what
    [doc.build(elements)] writes to the buffer, or the exception it
    raises. *)
Class ReportLab : Type := mkReportLab {
  pdf_font : str;
  paragraph_error : str -> ParagraphStyle -> option exn;
  doc_build : DocTemplate -> list flowable -> outcome (list Byte.byte)
}.

(** The characters kept by
    [re.sub(r'[^\u4e00-\u9fff0-9a-zA-Z\s\n\r\.,;:!?()（）【】-]', '', ...)]. *)
Definition allowed (c : N) : bool :=
  ((19968 <=? c) && (c <=? 40959)
   || is_ascii_digit c
   || (97 <=? c) && (c <=? 122)
   || (65 <=? c) && (c <=? 90)
   || isspace c || (c =? 10) || (c =? 13)
   || (c =? 46) || (c =? 44) || (c =? 59) || (c =? 58) || (c =? 33)
   || (c =? 63) || (c =? 40) || (c =? 41)
   || (c =? 65288) || (c =? 65289) || (c =? 12304) || (c =? 12305)
   || (c =? 45))%N.

(** Lines 320-322. *)
Definition clean (analysis_content : str) : str :=
  replace (u8 "### ") []
    (replace (u8 "## ") []
       (replace (u8 "# ") [] (filter allowed analysis_content))).

(** The fixed bytes written on line 387. *)
Definition minimal_pdf : list Byte.byte :=
  list_byte_of_string
    (String.concat (String (ascii_of_nat 10) EmptyString)
       [ "%PDF-1.4";
         "1 0 obj";
         "<< /Type /Catalog /Pages 2 0 R >>";
         "endobj";
         "2 0 obj";
         "<< /Type /Pages /Kids [3 0 R] /Count 1 >>";
         "endobj";
         "3 0 obj";
         "<< /Type /Page /Parent 2 0 R /MediaBox [0 0 612 792] >>";
         "endobj";
         "xref";
         "0 4";
         "0000000000 65535 f ";
         "0000000010 00000 n ";
         "0000000079 00000 n ";
         "0000000173 00000 n ";
         "trailer";
         "<< /Size 4 /Root 1 0 R >>";
         "startxref";
         "262";
         "%%EOF" ]%string).

Section Render.

Context {lib : ReportLab}.

Definition title_style : ParagraphStyle :=
  mkStyle (u8 "CustomTitle") (Some (u8 "Heading1")) 18 (Some 20) None None
          (Some 1) (Some (u8 "darkblue")) pdf_font true.

Definition h2_style : ParagraphStyle :=
  mkStyle (u8 "CustomHeading2") (Some (u8 "Heading2")) 14 (Some 15) None None
          None (Some (u8 "darkred")) pdf_font true.

Definition h3_style : ParagraphStyle :=
  mkStyle (u8 "CustomHeading3") (Some (u8 "Heading3")) 12 (Some 10) None None
          None (Some (u8 "darkgreen")) pdf_font true.

Definition body_style : ParagraphStyle :=
  mkStyle (u8 "CustomBody") (Some (u8 "Normal")) 10 (Some 8) (Some 15) None
          None None pdf_font false.

Definition list_style : ParagraphStyle :=
  mkStyle (u8 "CustomList") (Some (u8 "Normal")) 10 (Some 6) (Some 15)
          (Some 20) None None pdf_font false.

Definition basic_style : ParagraphStyle :=
  mkStyle (u8 "Basic") None 12 None None None None None
          (if is_empty pdf_font then u8 "Helvetica" else pdf_font) false.

(** The constructor [Paragraph(text, style)]. *)
Definition Paragraph (text : str) (style : ParagraphStyle) : M flowable :=
  match paragraph_error text style with
  | Some e => raise e
  | None => ret (Para text style)
  end.

(** [doc.build(elements)], returning the content of the buffer. *)
Definition build (doc : DocTemplate) (elements : list flowable)
  : M (list Byte.byte) :=
  fun w => (doc_build doc elements, w).

(** Lines 340-347: the style chosen for a non-empty stripped line. *)
Definition line_style (line : str) : ParagraphStyle :=
  if startswith (u8 "一、") line || startswith (u8 "1.") line then h2_style
  else if startswith (u8 "（一）") line || startswith (u8 "2.") line then h3_style
  else if startswith (u8 "- ") line || startswith (u8 "• ") line then list_style
  else body_style.

(** Lines 334-347: the element appended for one line of the text. *)
Definition line_element (line : str) : M flowable :=
  let line := strip line in
  if is_empty line then ret (Spacer 1 8)
  else Paragraph line (line_style line).

(** The loop of lines 333-347. *)
Fixpoint line_elements (lines : list str) : M (list flowable) :=
  match lines with
  | [] => ret []
  | line :: rest =>
      e <- line_element line ;;
      es <- line_elements rest ;;
      ret (e :: es)
  end.

(** Line 317. *)
Definition default_content (company_name stock_code : str) : str :=
  u8 "# " ++ company_name ++ u8 " ESG分析报告

## 基础信息
- 证券代码：" ++ stock_code ++ u8 "
- 分析结论：企业ESG表现良好".

(** Lines 241-358, the body of the outer [try]. *)
Definition styled_render (analysis_content : option str)
                         (company_name stock_code : str)
  : M (list Byte.byte) :=
  let doc := mkDoc landscape_A4 (Some (1 # 2))
                   (Some (company_name ++ u8 " ESG分析报告"))
                   (Some (u8 "ESG分析系统"))
                   (Some (u8 "企业ESG数字化转型分析")) in
  let analysis_content :=
    match analysis_content with
    | None => default_content company_name stock_code
    | Some s =>
        if is_empty s || is_empty (strip s)
        then default_content company_name stock_code
        else s
    end in
  let clean_content := clean analysis_content in
  heading <- Paragraph (company_name ++ u8 "(" ++ stock_code
                        ++ u8 ") ESG数字化转型分析报告") title_style ;;
  body <- line_elements (split newline clean_content) ;;
  stamp <- timestamp_now ;;
  footer <- Paragraph (u8 "报告生成时间：" ++ stamp) body_style ;;
  build doc ([heading; Spacer 1 20] ++ body ++ [PageBreak; footer]).

(** Lines 361-390, the handler of the outer [try]. *)
Definition fallback_render (company_name stock_code : str) (e : exn)
  : M (list Byte.byte) :=
  st_error (u8 "[表情] PDF生成失败：" ++ exn_msg e) ;;;
  let fallback_doc := mkDoc A4 None None None None in
  p1 <- Paragraph (company_name ++ u8 " ESG分析报告") basic_style ;;
  p2 <- Paragraph (u8 "证券代码：" ++ stock_code) basic_style ;;
  p3 <- Paragraph (u8 "ESG整体表现良好，具备数字化转型基础") basic_style ;;
  p4 <- Paragraph (u8 "建议12-24个月完成数字化转型落地") basic_style ;;
  try_except
    (build fallback_doc [p1; Spacer 1 10; p2; Spacer 1 10; p3; p4])
    (fun _ => ret minimal_pdf).

Definition generate_pdf_report (analysis_content : option str)
                               (company_name stock_code : str)
  : M (list Byte.byte) :=
  try_except
    (styled_render analysis_content company_name stock_code)
    (fallback_render company_name stock_code).

End Render.

(* ================================================================== *)
(** * Auxiliary notions and sample data *)
(* ================================================================== *)

(** The test of line 412: the year has a rating column and a
    quantified-value column. *)
Definition has_columns (g : Loaded) (year : Z) : bool :=
  match column_of_year (rating_columns g) year,
        column_of_year (quant_columns g) year with
  | Some rating_col, Some quant_col =>
      negb (is_empty rating_col) && negb (is_empty quant_col)
  | _, _ => false
  end.

(** The items of [esg_data] with a valid (positive) score. *)
Definition valid_items (g : Loaded) (company_data : Row) : list esg_item :=
  filter (fun it => 0 <? item_quant it) (esg_data g company_data).

(** The first row whose field [field] equals [value]. *)
Definition first_with (field : Row -> str) (value : str) (rows : list Row)
  : option Row :=
  find (fun r => PyStr.eqb (field r) value) rows.

(** The world after one more message. *)
Definition with_message (w : World) (l : severity) (text : str) : World :=
  mkWorld (messages w ++ [(l, text)]) (clock w).

(** The built-in sample table of [load_data] (lines 128-136), with its
    year columns in the sorted order of lines 166-167. *)
Definition sample_row (code name date rating19 rating20 : string)
                      (quant19 quant20 : pyval) : Row :=
  mkRow (u8 code) (u8 name) (u8 date)
        [ (u8 "2020年华证ESG评级", PyStr (u8 rating20));
          (u8 "2020_量化值", quant20);
          (u8 "2019年华证ESG评级", PyStr (u8 rating19));
          (u8 "2019_量化值", quant19) ].

Definition sample_df : list Row :=
  [ sample_row "000001" "平安银行" "1991-04-03" "AA" "AA" (PyInt 5) (PyInt 5);
    sample_row "601318" "中国平安" "2007-03-01" "AAA" "AAA" (PyInt 6) (PyInt 6);
    sample_row "600036" "招商银行" "2002-04-09" "AA" "AA" (PyInt 5) (PyInt 5);
    sample_row "002594" "比亚迪" "2011-06-30" "A" "AA" (PyInt 4) (PyInt 5);
    sample_row "600519" "贵州茅台" "2001-08-27" "AAA" "AAA" (PyInt 6) (PyInt 6) ].

Definition sample_data : Loaded :=
  mkLoaded sample_df years_regular
           [u8 "2019年华证ESG评级"; u8 "2020年华证ESG评级"]
           [u8 "2019_量化值"; u8 "2020_量化值"]
           (List.map show_name sample_df).

(** A row of the same table whose 2020 score is missing. *)
Definition row_missing_2020 : Row :=
  sample_row "002594" "比亚迪" "2011-06-30" "A" "AA" (PyInt 4) PyNaN.

(** A table whose columns stop at 2019, and a row of it with no rating
    and no score. *)
Definition row_without_scores : Row :=
  mkRow (u8 "002594") (u8 "比亚迪") (u8 "2011-06-30")
        [ (u8 "2018年华证ESG评级", PyNaN);
          (u8 "2018_量化值", PyNaN);
          (u8 "2019年华证ESG评级", PyNaN);
          (u8 "2019_量化值", PyNaN) ].

Definition data_until_2019 : Loaded :=
  mkLoaded [row_without_scores] years_regular
           [u8 "2018年华证ESG评级"; u8 "2019年华证ESG评级"]
           [u8 "2018_量化值"; u8 "2019_量化值"]
           [show_name row_without_scores].

(** The record of scenario A of the specification: scores 4, 5, 5 for
    2018-2020. *)
Definition row_scenario_A : Row :=
  mkRow (u8 "000001") (u8 "平安银行") (u8 "1991-04-03")
        [ (u8 "2018年华证ESG评级", PyStr (u8 "A"));
          (u8 "2018_量化值", PyInt 4);
          (u8 "2019年华证ESG评级", PyStr (u8 "AA"));
          (u8 "2019_量化值", PyInt 5);
          (u8 "2020年华证ESG评级", PyStr (u8 "AA"));
          (u8 "2020_量化值", PyInt 5) ].

Definition data_scenario_A : Loaded :=
  mkLoaded [row_scenario_A] years_regular
           [u8 "2018年华证ESG评级"; u8 "2019年华证ESG评级"; u8 "2020年华证ESG评级"]
           [u8 "2018_量化值"; u8 "2019_量化值"; u8 "2020_量化值"]
           [show_name row_scenario_A].

Definition quiet_world : World := mkWorld [] (u8 "2024-01-01 00:00:00").

(** An instance of the reportlab interface for evaluating the
    renderer: its [Paragraph] rejects a text with an opening [<b>]
    and no closing one, as the mark-up parser of reportlab does, and
    its [build] writes a header only. *)
Definition unclosed_bold (text : str) : bool :=
  contains (u8 "<b>") text && negb (contains (u8 "</b>") text).

Definition strict_markup : ReportLab :=
  mkReportLab
    (u8 "Helvetica")
    (fun text _ =>
       if unclosed_bold text
       then Some (mkExn ValueError
                        (u8 "Parse error: saw </para> instead of expected </b>"))
       else None)
    (fun _ _ => Returned (list_byte_of_string "%PDF-1.4")).

(** Position of the first occurrence of [pat] in [s], counted from
    [pos]. *)
Fixpoint byte_offset (pat s : list Byte.byte) (pos : Z) : option Z :=
  let fix is_prefix (p t : list Byte.byte) : bool :=
    match p, t with
    | [], _ => true
    | x :: p', y :: t' => Byte.eqb x y && is_prefix p' t'
    | _ :: _, [] => false
    end in
  if is_prefix pat s then Some pos
  else match s with
       | [] => None
       | _ :: s' => byte_offset pat s' (pos + 1)
       end.

(* ================================================================== *)
(** * The detail table: [display_company_details] *)
(* ================================================================== *)








Section Details.

Context (g : Loaded).



End Details.

(** A computation that leaves the world as it is. *)
Definition quiet {A} (c : M A) : Prop := forall w, snd (c w) = w.

(** A text without ASCII digits. *)
Definition digit_free (s : str) : bool :=
  forallb (fun c => negb (is_ascii_digit c)) s.

(* ================================================================== *)
(** * Properties *)
(* ================================================================== *)

Import Float64.

(** ** Rounding to binary64 *)

(** Comparison of two constants. *)
Ltac zconst := vm_compute; first [reflexivity | discriminate].

Lemma up_pos x : 0 < up x.
Proof. unfold up. apply Z.pow_pos_nonneg; lia. Qed.

Lemma dn_pos x : 0 < dn x.
Proof. unfold dn. apply Z.pow_pos_nonneg; lia. Qed.

Lemma up_nonpos x : x <= 0 -> up x = 1.
Proof. intros. unfold up. rewrite Z.max_l by lia. reflexivity. Qed.

Lemma dn_nonneg x : 0 <= x -> dn x = 1.
Proof. intros. unfold dn. rewrite Z.max_l by lia. reflexivity. Qed.

Lemma up_nonneg x : 0 <= x -> up x = 2 ^ x.
Proof. intros. unfold up. rewrite Z.max_r by lia. reflexivity. Qed.

Lemma dn_nonpos x : x <= 0 -> dn x = 2 ^ (- x).
Proof. intros. unfold dn. rewrite Z.max_r by lia. reflexivity. Qed.

(** [2^a / 2^b = 2^(a-b)], without division. *)
Lemma up_dn_scale a b :
  0 <= a -> 0 <= b -> 2 ^ a * dn (a - b) = 2 ^ b * up (a - b).
Proof.
  intros Ha Hb. destruct (Z.le_gt_cases b a) as [Hle | Hgt].
  - rewrite dn_nonneg, up_nonneg by lia.
    rewrite <- Z.pow_add_r by lia. rewrite Z.mul_1_r. f_equal. lia.
  - rewrite dn_nonpos, up_nonpos by lia.
    rewrite <- Z.pow_add_r by lia. rewrite Z.mul_1_r. f_equal. lia.
Qed.

(** [2^x <= 2^y] for [x <= y], without division. *)
Lemma up_dn_mono x y : x <= y -> up x * dn y <= up y * dn x.
Proof.
  intros Hxy.
  pose proof (up_dn_scale (Z.max 0 y + Z.max 0 (- x)) (Z.max 0 y + Z.max 0 (-x) - (y - x))).
  destruct (Z.le_gt_cases 0 x), (Z.le_gt_cases 0 y).
  - rewrite !dn_nonneg, !up_nonneg by lia.
    rewrite !Z.mul_1_r. apply Z.pow_le_mono_r; lia.
  - lia.
  - rewrite (up_nonpos x), (dn_nonneg y) by lia.
    pose proof (up_pos y). pose proof (dn_pos x). nia.
  - rewrite !up_nonpos, !dn_nonpos by lia.
    rewrite !Z.mul_1_l. apply Z.pow_le_mono_r; lia.
Qed.

Section RoundHalfEven.

Variables n d : Z.
Hypothesis Hd : 0 < d.

Lemma round_half_even_lower k : k * d <= n -> k <= round_half_even n d.
Proof.
  intros Hk. unfold round_half_even.
  pose proof (Z.div_mod n d ltac:(lia)) as Hdm.
  pose proof (Z.mod_pos_bound n d Hd) as Hr.
  assert (k <= n / d) by nia.
  destruct (2 * (n mod d) ?= d); [destruct (Z.even (n / d)) | |]; lia.
Qed.

Lemma round_half_even_upper k : n <= k * d -> round_half_even n d <= k.
Proof.
  intros Hk. unfold round_half_even.
  pose proof (Z.div_mod n d ltac:(lia)) as Hdm.
  pose proof (Z.mod_pos_bound n d Hd) as Hr.
  assert (n / d <= k) by nia.
  destruct (Z.compare_spec (2 * (n mod d)) d) as [He | Hlt | Hgt];
    [destruct (Z.even (n / d)) | |]; try lia.
  - assert (n / d <> k) by nia. lia.
  - assert (n / d <> k) by nia. lia.
Qed.

End RoundHalfEven.

Lemma normal_exponent_spec n d :
  0 < n -> 0 < d ->
  2 ^ 52 * d * up (normal_exponent n d) <= n * dn (normal_exponent n d) /\
  n * dn (normal_exponent n d) < 2 ^ 53 * d * up (normal_exponent n d).
Proof.
  intros Hn Hd. unfold normal_exponent.
  pose proof (Z.log2_spec n Hn) as [Hn1 Hn2].
  pose proof (Z.log2_spec d Hd) as [Hd1 Hd2].
  pose proof (Z.log2_nonneg n) as Ha. pose proof (Z.log2_nonneg d) as Hb.
  set (a := Z.log2 n) in *. set (b := Z.log2 d) in *.
  set (e0 := a - b - 53).
  assert (H0 : 2 ^ a * dn e0 = 2 ^ 53 * 2 ^ b * up e0).
  { replace e0 with (a - (b + 53)) by (unfold e0; lia).
    rewrite up_dn_scale by lia. rewrite Z.pow_add_r by lia. ring. }
  assert (H1 : 2 * 2 ^ a * dn (e0 + 1) = 2 ^ 53 * 2 ^ b * up (e0 + 1)).
  { replace (e0 + 1) with (Z.succ a - (b + 53)) by (unfold e0; lia).
    rewrite <- Z.pow_succ_r by lia.
    rewrite up_dn_scale by lia. rewrite Z.pow_add_r by lia. ring. }
  rewrite Z.pow_succ_r in Hn2, Hd2 by lia.
  pose proof (up_pos e0). pose proof (dn_pos e0).
  pose proof (up_pos (e0 + 1)). pose proof (dn_pos (e0 + 1)).
  assert (0 < 2 ^ a) by (apply Z.pow_pos_nonneg; lia).
  assert (0 < 2 ^ b) by (apply Z.pow_pos_nonneg; lia).
  assert (Hs : up (e0 + 1) * dn e0 = 2 * up e0 * dn (e0 + 1)).
  { assert (2 ^ 53 * 2 ^ b * up (e0 + 1) * dn e0
            = 2 ^ 53 * 2 ^ b * (2 * up e0 * dn (e0 + 1))).
    { rewrite <- H1.
      transitivity (2 * dn (e0 + 1) * (2 ^ a * dn e0)); [ring|].
      rewrite H0. ring. }
    assert (0 < 2 ^ 53 * 2 ^ b) by lia.
    nia. }
  change (2 ^ 53) with (2 * 2 ^ 52) in *.
  assert (HP : 0 < 2 ^ 52) by zconst.
  set (P := 2 ^ 52) in *. clearbody P.
  destruct (Z.leb_spec (2 * P * d * up e0) (n * dn e0)) as [Ht | Ht].
  - split.
    + assert (P * d * up (e0 + 1) * dn e0 <= n * dn (e0 + 1) * dn e0) by nia.
      nia.
    + assert (n * dn (e0 + 1) < 2 * 2 ^ a * dn (e0 + 1)) by nia.
      assert (2 * P * 2 ^ b * up (e0 + 1) <= 2 * P * d * up (e0 + 1)) by nia.
      lia.
  - split; [|lia].
    assert (P * d * up e0 <= P * (2 * 2 ^ b) * up e0) by nia.
    assert (2 ^ a * dn e0 <= n * dn e0) by nia.
    lia.
Qed.

Lemma exponent_upper n d :
  0 < n -> 0 < d ->
  n * dn (exponent n d) < 2 ^ 53 * d * up (exponent n d).
Proof.
  intros Hn Hd.
  destruct (normal_exponent_spec n d Hn Hd) as [_ Hu].
  unfold exponent.
  set (e1 := normal_exponent n d) in *. set (e := Z.max e1 (-1074)).
  pose proof (up_dn_mono e1 e ltac:(lia)) as Hm.
  pose proof (up_pos e1). pose proof (up_pos e).
  pose proof (dn_pos e1). pose proof (dn_pos e).
  assert (HP : 0 < 2 ^ 53) by zconst.
  set (P := 2 ^ 53) in *. clearbody P.
  assert (n * dn e * up e1 <= n * dn e1 * up e) by nia.
  assert (n * dn e1 * up e < P * d * up e1 * up e) by nia.
  nia.
Qed.

Lemma mantissa_le n d :
  0 < n -> 0 < d ->
  round_half_even (n * dn (exponent n d)) (d * up (exponent n d)) <= 2 ^ 53.
Proof.
  intros Hn Hd. pose proof (exponent_upper n d Hn Hd).
  pose proof (up_pos (exponent n d)).
  apply round_half_even_upper; nia.
Qed.

Lemma mantissa_ge n d :
  0 < n -> 0 < d -> -1074 <= normal_exponent n d ->
  2 ^ 52 <= round_half_even (n * dn (exponent n d)) (d * up (exponent n d)).
Proof.
  intros Hn Hd He.
  destruct (normal_exponent_spec n d Hn Hd) as [Hl _].
  unfold exponent. rewrite Z.max_l by lia.
  pose proof (up_pos (normal_exponent n d)).
  apply round_half_even_lower; nia.
Qed.

Lemma pow2_lt_inv a b : 0 <= a -> 0 <= b -> 2 ^ a < 2 ^ b -> a < b.
Proof. intros. apply (Z.pow_lt_mono_r_iff 2); lia. Qed.

Lemma pow2_le a b : 0 <= a <= b -> 2 ^ a <= 2 ^ b.
Proof. intros. apply Z.pow_le_mono_r; lia. Qed.

(** The exponent of a quotient that is at least 1. *)
Lemma normal_exponent_ge n d :
  0 < d -> d <= n -> -52 <= normal_exponent n d.
Proof.
  intros Hd Hn.
  destruct (normal_exponent_spec n d ltac:(lia) Hd) as [_ Hu].
  destruct (Z.le_gt_cases (-52) (normal_exponent n d)) as [|Hlt]; [assumption|].
  exfalso.
  rewrite up_nonpos, dn_nonpos in Hu by lia.
  pose proof (pow2_le 53 (- normal_exponent n d) ltac:(lia)).
  assert (0 < 2 ^ 53) by zconst.
  nia.
Qed.

(** The exponent of a quotient that is at most [DBL_MAX]. *)
Lemma normal_exponent_le n d :
  0 < n -> 0 < d -> n <= DBL_MAX * d -> normal_exponent n d <= 971.
Proof.
  intros Hn Hd Hmax.
  destruct (normal_exponent_spec n d Hn Hd) as [Hl _].
  destruct (Z.le_gt_cases (normal_exponent n d) 971) as [|Hgt]; [assumption|].
  exfalso.
  rewrite up_nonneg, dn_nonneg in Hl by lia.
  pose proof (pow2_le 972 (normal_exponent n d) ltac:(lia)).
  assert (DBL_MAX < 2 ^ 52 * 2 ^ 972) by zconst.
  assert (0 < 2 ^ 52) by zconst.
  nia.
Qed.

Lemma Q_of_parts_ge (a b k : Z) :
  0 < b -> k * b <= a -> (inject_Z k <= a # Z.to_pos b)%Q.
Proof.
  intros Hb H. unfold Qle. simpl. rewrite Z2Pos.id by assumption. lia.
Qed.

Lemma Q_of_parts_le (a b k : Z) :
  0 < b -> a <= k * b -> (a # Z.to_pos b <= inject_Z k)%Q.
Proof.
  intros Hb H. unfold Qle. simpl. rewrite Z2Pos.id by assumption. lia.
Qed.

(** Rounding keeps a quotient at or above 1 there. *)
Lemma round64_ge_1 n d q :
  0 < d -> d <= n -> round64 n d = Some q -> (1 <= q)%Q.
Proof.
  intros Hd Hn. unfold round64.
  destruct (Z.leb_spec n 0); [lia|].
  pose proof (normal_exponent_ge n d Hd Hn) as He.
  pose proof (mantissa_ge n d ltac:(lia) Hd ltac:(lia)) as Hm.
  assert (Hex : exponent n d = normal_exponent n d)
    by (unfold exponent; lia).
  destruct (_ <=? _); [discriminate|].
  intros [= <-].
  apply (Q_of_parts_ge _ _ 1); [apply dn_pos|].
  pose proof (up_pos (exponent n d)).
  assert (dn (exponent n d) <= 2 ^ 52).
  { unfold dn. apply pow2_le. lia. }
  nia.
Qed.

(** A quotient of at most [DBL_MAX] has a finite rounding. *)
Lemma round64_defined n d :
  0 < d -> n <= DBL_MAX * d -> exists q, round64 n d = Some q.
Proof.
  intros Hd Hmax. unfold round64.
  destruct (Z.leb_spec n 0) as [|Hn]; [eauto|].
  pose proof (mantissa_le n d Hn Hd) as Hm.
  destruct (Z.leb_spec (2 ^ 1024)
              (round_half_even (n * dn (exponent n d)) (d * up (exponent n d))
               * up (exponent n d))) as [Hov|]; [exfalso | eauto].
  pose proof (normal_exponent_le n d Hn Hd Hmax) as He.
  assert (Hex : exponent n d <= 971) by (unfold exponent; lia).
  destruct (Z.le_gt_cases (exponent n d) 970) as [Hsmall | Hbig].
  - assert (up (exponent n d) <= 2 ^ 970) by (unfold up; apply pow2_le; lia).
    pose proof (up_pos (exponent n d)).
    assert (2 ^ 53 * 2 ^ 970 < 2 ^ 1024) by zconst.
    nia.
  - assert (Heq : exponent n d = 971) by lia.
    rewrite Heq in *. rewrite dn_nonneg in * by lia.
    assert (round_half_even (n * 1) (d * up 971) <= 2 ^ 53 - 1).
    { apply round_half_even_upper; [pose proof (up_pos 971); nia|].
      unfold DBL_MAX in Hmax. rewrite up_nonneg by lia. lia. }
    assert ((2 ^ 53 - 1) * up 971 < 2 ^ 1024) by zconst.
    pose proof (up_pos 971). nia.
Qed.

(** A finite rounding lies between 0 and [DBL_MAX]. *)
Lemma round64_bounds n d q :
  0 < d -> round64 n d = Some q ->
  (0 <= q)%Q /\ (q <= inject_Z DBL_MAX)%Q.
Proof.
  intros Hd. unfold round64.
  destruct (Z.leb_spec n 0) as [|Hn].
  { intros [= <-]. split; [apply Qle_refl | discriminate]. }
  set (e := exponent n d).
  set (m := round_half_even (n * dn e) (d * up e)).
  destruct (Z.leb_spec (2 ^ 1024) (m * up e)) as [|Hfin]; [discriminate|].
  intros [= <-].
  pose proof (up_pos e) as Hup. pose proof (dn_pos e) as Hdn.
  assert (Hm0 : 0 <= m).
  { apply round_half_even_lower; nia. }
  split.
  - apply (Q_of_parts_ge _ _ 0); [assumption | nia].
  - apply Q_of_parts_le; [assumption|].
    pose proof (mantissa_le n d Hn Hd) as Hm. fold e in Hm. fold m in Hm.
    destruct (Z.le_gt_cases e 970) as [Hsmall | Hbig].
    + assert (up e <= 2 ^ 970) by (unfold up; apply pow2_le; lia).
      assert (2 ^ 53 * 2 ^ 970 <= DBL_MAX) by zconst.
      assert (m * up e <= 2 ^ 53 * 2 ^ 970) by nia.
      nia.
    + assert (Hnorm : -1074 <= normal_exponent n d) by (unfold e, exponent in Hbig; lia).
      pose proof (mantissa_ge n d Hn Hd Hnorm) as Hge. fold e in Hge. fold m in Hge.
      rewrite (dn_nonneg e) by lia. rewrite up_nonneg in * by lia.
      assert (e < 972).
      { apply pow2_lt_inv; [lia | lia |].
        assert (2 ^ 52 * 2 ^ 972 = 2 ^ 1024) by zconst.
        assert (0 < 2 ^ 52) by zconst. nia. }
      assert (e = 971) by lia. subst e.
      replace (exponent n d) with 971 in * by lia.
      destruct (Z.eq_dec m (2 ^ 53)) as [E | NE].
      * exfalso. rewrite E in Hfin. revert Hfin. apply Z.le_ngt. zconst.
      * unfold DBL_MAX. nia.
Qed.

(** ** Strings, parsed cells and aggregates *)

Lemma eqb_eq (a b : str) : PyStr.eqb a b = true <-> a = b.
Proof.
  revert b. induction a as [|x a IH]; intros [|y b]; simpl;
    try (split; [discriminate | congruence]); try tauto.
  rewrite andb_true_iff, N.eqb_eq, IH. split.
  - intros [-> ->]. reflexivity.
  - intros [= -> ->]. auto.
Qed.

Lemma eqb_refl (a : str) : PyStr.eqb a a = true.
Proof. apply eqb_eq. reflexivity. Qed.

(* ---- int(x) ---- *)
Lemma int_of_float_bounds (q : Q) (k : Z) :
  (0 <= q)%Q -> (q <= inject_Z k)%Q ->
  0 <= int_of_float q <= k.
Proof.
  destruct q as [a b]. unfold Qle, int_of_float. simpl. intros H0 Hk.
  rewrite Z.quot_div_nonneg by lia.
  split.
  - apply Z.div_pos; lia.
  - apply Z.div_le_upper_bound; lia.
Qed.

Lemma int_or_zero_bounds n d :
  0 < d -> 0 <= int_or_zero (round64 n d) <= DBL_MAX.
Proof.
  intros Hd. destruct (round64 n d) as [q|] eqn:E; simpl.
  - destruct (round64_bounds n d q Hd E). apply int_of_float_bounds; assumption.
  - split; [lia | zconst].
Qed.

Lemma parse_text_bounds s : 0 <= parse_text s <= DBL_MAX.
Proof.
  assert (H0 : 0 <= 0 <= DBL_MAX) by (split; [lia | zconst]).
  unfold parse_text. destruct (isdigit _); [|assumption].
  destruct (split 46 s) as [|ip [|fp [|]]]; try assumption.
  - apply int_or_zero_bounds. lia.
  - apply int_or_zero_bounds. apply Z.pow_pos_nonneg; lia.
Qed.

Lemma parse_quant_bounds v : 0 <= parse_quant v <= DBL_MAX.
Proof.
  assert (H0 : 0 <= 0 <= DBL_MAX) by (split; [lia | zconst]).
  destruct v as [| |z|x|s]; cbn [parse_quant]; try assumption.
  - destruct (0 <=? z); [|assumption]. apply int_or_zero_bounds. lia.
  - destruct (_ && _) eqn:E; [|assumption].
    apply andb_true_iff in E. destruct E as [Elo Ehi].
    apply negb_true_iff in Ehi.
    assert (Hx0 : (0 <= x)%Q).
    { apply orb_true_iff in Elo. destruct Elo as [E | E].
      - apply Qeq_bool_iff in E. rewrite E. apply Qle_refl.
      - apply Qle_bool_iff in E. eapply Qle_trans; [|exact E]. discriminate. }
    assert (Hx1 : (x <= inject_Z (10 ^ 16))%Q).
    { apply Qlt_le_weak. apply Qnot_le_lt. intros C.
      apply Qle_bool_iff in C. congruence. }
    destruct (int_of_float_bounds x (10 ^ 16) Hx0 Hx1).
    split; [assumption|]. transitivity (10 ^ 16); [assumption | zconst].
  - apply parse_text_bounds.
Qed.

(* ---- sum, max, min ---- *)
Lemma fold_add_bounds (l : list Z) (lo hi acc : Z) :
  Forall (fun v => lo <= v <= hi) l ->
  acc + lo * Z.of_nat (List.length l) <= fold_left Z.add l acc
    <= acc + hi * Z.of_nat (List.length l).
Proof.
  intros H. revert acc. induction H as [|v l Hv _ IH]; intros acc.
  - simpl. lia.
  - cbn [fold_left List.length]. specialize (IH (acc + v)). lia.
Qed.

Lemma py_sum_bounds (l : list Z) (lo hi : Z) :
  Forall (fun v => lo <= v <= hi) l ->
  lo * Z.of_nat (List.length l) <= py_sum l <= hi * Z.of_nat (List.length l).
Proof.
  intros H. pose proof (fold_add_bounds l lo hi 0 H). unfold py_sum. lia.
Qed.

Lemma py_max_ge (x : Z) (r : list Z) : x <= py_max x r.
Proof.
  unfold py_max. revert x. induction r as [|y r IH]; intros x; simpl; [lia|].
  specialize (IH (Z.max x y)). lia.
Qed.

Lemma py_min_ge (lo x : Z) (r : list Z) :
  lo <= x -> Forall (fun v => lo <= v) r -> lo <= py_min x r.
Proof.
  unfold py_min. intros Hx H. revert x Hx.
  induction H as [|y r Hy _ IH]; intros x Hx; simpl; [lia|].
  apply IH. lia.
Qed.

(** [max] and [min] return the largest and the smallest element. *)
Lemma py_max_spec (x : Z) (r : list Z) :
  In (py_max x r) (x :: r) /\ Forall (fun v => v <= py_max x r) (x :: r).
Proof.
  unfold py_max. revert x. induction r as [|y r IH]; intros x.
  - simpl. split; [auto | repeat constructor; lia].
  - cbn [fold_left]. destruct (IH (Z.max x y)) as [Hin Hall].
    inversion Hall as [|? ? Hm Hr]; subst. split.
    + destruct Hin as [E | Hin]; [|right; right; exact Hin].
      rewrite <- E. destruct (Z.max_spec x y) as [[_ ->] | [_ ->]];
        [right; left | left]; reflexivity.
    + constructor; [lia|]. constructor; [lia | exact Hr].
Qed.

Lemma py_min_spec (x : Z) (r : list Z) :
  In (py_min x r) (x :: r) /\ Forall (fun v => py_min x r <= v) (x :: r).
Proof.
  unfold py_min. revert x. induction r as [|y r IH]; intros x.
  - simpl. split; [auto | repeat constructor; lia].
  - cbn [fold_left]. destruct (IH (Z.min x y)) as [Hin Hall].
    inversion Hall as [|? ? Hm Hr]; subst. split.
    + destruct Hin as [E | Hin]; [|right; right; exact Hin].
      rewrite <- E. destruct (Z.min_spec x y) as [[_ ->] | [_ ->]];
        [left | right; left]; reflexivity.
    + constructor; [lia|]. constructor; [lia | exact Hr].
Qed.

(** ** The series of a row *)

Section AnalysisFacts.

Context (g : Loaded) (row : Row).

Lemma year_item_cases (y : Z) :
  (has_columns g y = false /\ year_item g row y = []) \/
  (has_columns g y = true /\
   exists rating v, year_item g row y = [mkItem y rating (parse_quant v)]).
Proof.
  unfold has_columns, year_item.
  destruct (column_of_year (rating_columns g) y) as [rc|]; [|left; auto].
  destruct (column_of_year (quant_columns g) y) as [qc|]; [|left; auto].
  destruct (negb (is_empty rc) && negb (is_empty qc)); [right | left]; eauto.
Qed.

Lemma esg_data_years :
  List.map item_year (esg_data g row) = filter (has_columns g) (years g).
Proof.
  unfold esg_data. induction (years g) as [|y ys IH]; [reflexivity|].
  cbn [flat_map filter]. rewrite map_app, IH.
  destruct (year_item_cases y) as [[-> ->] | [-> (r & v & ->)]]; reflexivity.
Qed.

Lemma esg_data_bounds :
  Forall (fun it => 0 <= item_quant it <= DBL_MAX) (esg_data g row).
Proof.
  unfold esg_data. induction (years g) as [|y ys IH]; [constructor|].
  cbn [flat_map].
  destruct (year_item_cases y) as [[_ ->] | [_ (r & v & ->)]]; [exact IH|].
  constructor; [apply parse_quant_bounds | exact IH].
Qed.

End AnalysisFacts.

Lemma positive_bounds (l : list Z) :
  Forall (fun v => 0 <= v <= DBL_MAX) l ->
  Forall (fun v => 1 <= v <= DBL_MAX) (filter (fun v => 0 <? v) l).
Proof.
  intros H. induction H as [|v l Hv _ IH]; [constructor|].
  cbn [filter]. destruct (Z.ltb_spec 0 v); [constructor; [lia | exact IH] | exact IH].
Qed.

Lemma quant_bounds (items : list esg_item) :
  Forall (fun it => 0 <= item_quant it <= DBL_MAX) items ->
  Forall (fun v => 0 <= v <= DBL_MAX) (List.map item_quant items).
Proof. intros H. induction H; constructor; assumption. Qed.

Lemma quant_values_bounds g row :
  Forall (fun v => 1 <= v <= DBL_MAX) (quant_values g row).
Proof.
  apply positive_bounds, quant_bounds, esg_data_bounds.
Qed.

Lemma last_map {A B} (f : A -> B) (l : list A) (d : A) :
  last (List.map f l) (f d) = f (last l d).
Proof.
  induction l as [|x [|y l] IH]; try reflexivity. exact IH.
Qed.

(** The mean of scores between 1 and [DBL_MAX] is a finite float, at
    least 1. *)
Lemma mean_defined (l : list Z) :
  l <> [] -> Forall (fun v => 1 <= v <= DBL_MAX) l ->
  exists q, round64 (py_sum l) (Z.of_nat (List.length l)) = Some q /\ (1 <= q)%Q.
Proof.
  intros Hne H. pose proof (py_sum_bounds l 1 DBL_MAX H) as [Hlo Hhi].
  assert (Hlen : 0 < Z.of_nat (List.length l)).
  { destruct l; [congruence | simpl; lia]. }
  destruct (round64_defined (py_sum l) (Z.of_nat (List.length l)) Hlen Hhi)
    as [q Hq].
  exists q. split; [exact Hq|].
  apply (round64_ge_1 (py_sum l) (Z.of_nat (List.length l)) q Hlen); [lia | exact Hq].
Qed.

(** [core_metrics] returns, and leaves the world as it was. *)
Lemma core_metrics_returns (items : list esg_item) :
  Forall (fun it => 0 <= item_quant it <= DBL_MAX) items ->
  exists m, (forall w, core_metrics items w = (Returned m, w)) /\
    match items with
    | [] => m = fallback_metrics
    | _ :: _ =>
        let vs := filter (fun v => 0 <? v) (List.map item_quant items) in
        match vs with
        | [] => avg_value m = 3%Q /\ max_value m = 4 /\ min_value m = 2
        | x :: r =>
            round64 (py_sum vs) (Z.of_nat (List.length vs)) = Some (avg_value m)
            /\ (1 <= avg_value m)%Q
            /\ max_value m = py_max x r /\ min_value m = py_min x r
        end
        /\ latest_value m = item_quant (last items (mkItem 0 PyNone 0))
        /\ latest_year m = YearInt (item_year (last items (mkItem 0 PyNone 0)))
        /\ trend m =
             (if 3 <=? Z.of_nat (List.length vs)
              then if hd 0 vs <? last vs 0 then Rising
                   else if last vs 0 <? hd 0 vs then Falling
                   else Stable
              else Stable)
    end.
Proof.
  intros Hb. destruct items as [|it items];
    [eexists; split; [intros w|]; reflexivity|].
  pose proof (positive_bounds _ (quant_bounds _ Hb)) as Hvs.
  unfold core_metrics.
  set (vs := filter (fun v => 0 <? v) (List.map item_quant (it :: items))) in *.
  destruct vs as [|x r] eqn:E.
  - eexists. split; [intros w; reflexivity|]. cbn. repeat split; reflexivity.
  - destruct (mean_defined (x :: r) ltac:(discriminate) Hvs) as (q & Hq & Hq1).
    unfold truediv, bind. rewrite Hq. cbn [ret].
    eexists. split; [intros w; reflexivity|]. cbn [avg_value max_value min_value
      latest_value latest_year trend]. repeat split; assumption || reflexivity.
Qed.

(** ** What [compute] returns *)

Lemma last_In {A} (l : list A) (d : A) : l <> [] -> In (last l d) l.
Proof.
  induction l as [|x [|y l] IH]; intros H; [congruence | left; reflexivity |].
  right. apply IH. discriminate.
Qed.

Lemma filter_nil_inv {A} (f : A -> bool) (l : list A) :
  filter f l = [] -> Forall (fun x => f x = false) l.
Proof.
  induction l as [|x l IH]; [constructor|]. cbn [filter].
  destruct (f x) eqn:E; [discriminate|]. intros H. constructor; auto.
Qed.

Lemma filter_map_swap {A B} (f : A -> B) (p : B -> bool) (l : list A) :
  filter p (List.map f l) = List.map f (filter (fun x => p (f x)) l).
Proof.
  induction l as [|x l IH]; [reflexivity|]. cbn [List.map filter].
  destruct (p (f x)); cbn [List.map]; rewrite IH; reflexivity.
Qed.

Lemma hd_map {A B} (f : A -> B) (l : list A) (d : A) :
  hd (f d) (List.map f l) = f (hd d l).
Proof. destruct l; reflexivity. Qed.

Section ComputeFacts.

Context (g : Loaded) (row : Row).

Lemma quant_values_valid_items :
  quant_values g row = List.map item_quant (valid_items g row).
Proof. apply filter_map_swap. Qed.

(** What [compute] returns, in terms of the series of the row. *)
Lemma compute_returns :
  exists m, (forall w, compute g row w = (Returned m, w)) /\
    match esg_data g row with
    | [] => m = fallback_metrics
    | _ :: _ =>
        match quant_values g row with
        | [] => avg_value m = 3%Q /\ max_value m = 4 /\ min_value m = 2
        | x :: r =>
            round64 (py_sum (quant_values g row))
                    (Z.of_nat (List.length (quant_values g row)))
              = Some (avg_value m)
            /\ (1 <= avg_value m)%Q
            /\ max_value m = py_max x r /\ min_value m = py_min x r
        end
        /\ latest_value m = item_quant (last (esg_data g row) (mkItem 0 PyNone 0))
        /\ latest_year m = YearInt (item_year (last (esg_data g row) (mkItem 0 PyNone 0)))
        /\ trend m =
             (if 3 <=? Z.of_nat (List.length (quant_values g row))
              then if hd 0 (quant_values g row) <? last (quant_values g row) 0
                   then Rising
                   else if last (quant_values g row) 0 <? hd 0 (quant_values g row)
                        then Falling
                        else Stable
              else Stable)
    end.
Proof.
  exact (core_metrics_returns (esg_data g row) (esg_data_bounds g row)).
Qed.

(** Every item of the series is the parsed cell of the score column of
    its year. *)
Lemma esg_data_items :
  Forall (fun it =>
            exists quant_col,
              column_of_year (quant_columns g) (item_year it) = Some quant_col /\
              item_quant it = parse_quant (get (cells row) quant_col (PyInt 0)))
         (esg_data g row).
Proof.
  unfold esg_data. induction (years g) as [|y ys IH]; [constructor|].
  cbn [flat_map]. unfold year_item at 1.
  destruct (column_of_year (rating_columns g) y) as [rc|]; [|exact IH].
  destruct (column_of_year (quant_columns g) y) as [qc|] eqn:E; [|exact IH].
  destruct (negb (is_empty rc) && negb (is_empty qc)); [|exact IH].
  constructor; [|exact IH]. exists qc. split; [exact E | reflexivity].
Qed.

Lemma latest_item_year :
  item_year (last (esg_data g row) (mkItem 0 PyNone 0))
  = last (filter (has_columns g) (years g)) 0.
Proof.
  rewrite <- esg_data_years with (row := row).
  symmetry. apply (last_map item_year _ (mkItem 0 PyNone 0)).
Qed.

Lemma items_years_sorted (p : esg_item -> bool) :
  StronglySorted Z.lt (years g) ->
  StronglySorted Z.lt (List.map item_year (filter p (esg_data g row))).
Proof.
  unfold esg_data. induction 1 as [|y ys Hs IH Hall]; [constructor|].
  cbn [flat_map]. rewrite filter_app, map_app.
  destruct (year_item_cases g row y) as [[_ ->] | [_ (r & v & ->)]]; [exact IH|].
  cbn [filter]. destruct (p _); [|exact IH].
  cbn [List.map app item_year]. constructor; [exact IH|].
  apply Forall_forall. intros y' Hy'.
  apply in_map_iff in Hy'. destruct Hy' as (it & <- & Hit).
  apply filter_In in Hit. destruct Hit as [Hit _].
  assert (Hin : In (item_year it) ys).
  { clear - Hit. induction ys as [|z zs IHz]; [contradiction|].
    cbn [flat_map] in Hit. apply in_app_or in Hit. destruct Hit as [Hit | Hit].
    - destruct (year_item_cases g row z) as [[_ E] | [_ (r & v & E)]];
        rewrite E in Hit; [contradiction|].
      destruct Hit as [<- | []]. left. reflexivity.
    - right. auto. }
  rewrite Forall_forall in Hall. auto.
Qed.

End ComputeFacts.

(** ** Metrics *)

(** C1, as amended.  For every record whose series yields no valid
    score, [compute] returns average 3, maximum 4, minimum 2 and the
    trend Stable.  The latest score 3 and the latest year ['2020'] of
    the fallback tuple are returned only when no supported year has
    both a rating column and a score column; otherwise the latest
    score and year are read from the last year that has the columns,
    whose score is then 0. *)
Theorem zero_valid_scores_metrics (g : Loaded) (row : Row) (w : World) :
  quant_values g row = [] ->
  exists m, compute g row w = (Returned m, w) /\
    avg_value m = 3%Q /\ max_value m = 4 /\ min_value m = 2 /\
    trend m = Stable /\
    ((esg_data g row = [] /\
      latest_value m = 3 /\ latest_year m = YearStr (u8 "2020")) \/
     (esg_data g row <> [] /\
      latest_value m = 0 /\
      latest_year m = YearInt (last (filter (has_columns g) (years g)) 0))).
Proof.
  intros Hvs. destruct (compute_returns g row) as (m & Hm & Hspec).
  exists m. split; [apply Hm|].
  pose proof (latest_item_year g row) as Hyear.
  pose proof (esg_data_bounds g row) as Hb.
  assert (Hzero : Forall (fun it => (0 <? item_quant it) = false) (esg_data g row)).
  { unfold quant_values in Hvs. rewrite filter_map_swap in Hvs.
    apply map_eq_nil in Hvs. apply filter_nil_inv in Hvs. exact Hvs. }
  rewrite Hvs in Hspec.
  destruct (esg_data g row) as [|it items] eqn:E.
  - subst m. repeat split; try reflexivity. left. repeat split; reflexivity.
  - destruct Hspec as ((Ha & Hmx & Hmn) & Hlv & Hly & Ht).
    repeat split; try assumption.
    right. split; [discriminate|]. split.
    + rewrite Hlv.
      pose proof (last_In (it :: items) (mkItem 0 PyNone 0) ltac:(discriminate)) as Hin.
      rewrite Forall_forall in Hzero, Hb.
      specialize (Hzero _ Hin). specialize (Hb _ Hin).
      apply Z.ltb_ge in Hzero. lia.
    + rewrite Hly, Hyear. reflexivity.
Qed.

Lemma zero_valid_scores_metrics_witness :
  quant_values data_until_2019 row_without_scores = [] /\
  exists m, compute data_until_2019 row_without_scores quiet_world
            = (Returned m, quiet_world) /\
    avg_value m = 3%Q /\ max_value m = 4 /\ min_value m = 2 /\
    trend m = Stable /\
    ((esg_data data_until_2019 row_without_scores = [] /\
      latest_value m = 3 /\ latest_year m = YearStr (u8 "2020")) \/
     (esg_data data_until_2019 row_without_scores <> [] /\
      latest_value m = 0 /\
      latest_year m
      = YearInt (last (filter (has_columns data_until_2019)
                              (years data_until_2019)) 0))).
Proof.
  split; [vm_compute; reflexivity|].
  apply (zero_valid_scores_metrics data_until_2019 row_without_scores quiet_world).
  vm_compute; reflexivity.
Defined.

Lemma zero_valid_scores_not_fallback :
  quant_values data_until_2019 row_without_scores = [] /\
  compute data_until_2019 row_without_scores quiet_world
  = (Returned (mkMetrics 3 4 2 0 (YearInt 2019) Stable), quiet_world) /\
  last (years data_until_2019) 0 = 2020 /\
  mkMetrics 3 4 2 0 (YearInt 2019) Stable <> fallback_metrics.
Proof.
  split; [vm_compute; reflexivity|].
  split; [vm_compute; reflexivity|].
  split; [vm_compute; reflexivity|].
  discriminate.
Qed.

(** C2, as amended.  For every record with at least one valid score,
    [compute] takes the latest year and the latest score from the last
    supported year that has both a rating column and a score column in
    the table: the latest score is the parsed cell of that year's score
    column, whether or not it is valid. *)
Theorem latest_is_last_year_with_columns (g : Loaded) (row : Row) (w : World) :
  quant_values g row <> [] ->
  exists m quant_col,
    compute g row w = (Returned m, w) /\
    latest_year m = YearInt (last (filter (has_columns g) (years g)) 0) /\
    column_of_year (quant_columns g) (last (filter (has_columns g) (years g)) 0)
    = Some quant_col /\
    latest_value m = parse_quant (get (cells row) quant_col (PyInt 0)).
Proof.
  intros Hvs. destruct (compute_returns g row) as (m & Hm & Hspec).
  pose proof (latest_item_year g row) as Hyear.
  pose proof (esg_data_items g row) as Hitems.
  destruct (esg_data g row) as [|it items] eqn:E.
  { exfalso. apply Hvs. unfold quant_values. rewrite E. reflexivity. }
  destruct Hspec as (_ & Hlv & Hly & _).
  pose proof (last_In (it :: items) (mkItem 0 PyNone 0) ltac:(discriminate)) as Hin.
  rewrite Forall_forall in Hitems. destruct (Hitems _ Hin) as (qc & Hqc & Hq).
  exists m, qc. split; [apply Hm|]. rewrite Hly, Hlv, <- Hyear. auto.
Qed.

Lemma latest_is_last_year_with_columns_witness :
  quant_values sample_data row_missing_2020 <> [] /\
  exists m quant_col,
    compute sample_data row_missing_2020 quiet_world = (Returned m, quiet_world) /\
    latest_year m
    = YearInt (last (filter (has_columns sample_data) (years sample_data)) 0) /\
    column_of_year (quant_columns sample_data)
                   (last (filter (has_columns sample_data) (years sample_data)) 0)
    = Some quant_col /\
    latest_value m
    = parse_quant (get (cells row_missing_2020) quant_col (PyInt 0)).
Proof.
  split; [vm_compute; discriminate|].
  apply (latest_is_last_year_with_columns sample_data row_missing_2020 quiet_world).
  vm_compute; discriminate.
Defined.

Lemma latest_not_last_valid :
  valid_items sample_data row_missing_2020 = [mkItem 2019 (PyStr (u8 "A")) 4] /\
  exists m,
    compute sample_data row_missing_2020 quiet_world = (Returned m, quiet_world) /\
    latest_value m = 0 /\ latest_year m = YearInt 2020.
Proof.
  split; [vm_compute; reflexivity|].
  eexists. split; [vm_compute; reflexivity|]. split; reflexivity.
Qed.

Lemma level_of_cases (avg : Q) :
  ((5 <= avg)%Q /\ level (level_of avg) = Excellent) \/
  ((4 <= avg)%Q /\ (avg < 5)%Q /\ level (level_of avg) = Good) \/
  ((3 <= avg)%Q /\ (avg < 4)%Q /\ level (level_of avg) = Moderate) \/
  ((avg < 3)%Q /\ level (level_of avg) = NeedsImprovement).
Proof.
  assert (Hdec : forall k, (Qle_bool k avg = true /\ (k <= avg)%Q) \/
                           (Qle_bool k avg = false /\ (avg < k)%Q)).
  { intros k. destruct (Qle_bool k avg) eqn:E.
    - left. split; [reflexivity | apply Qle_bool_iff; exact E].
    - right. split; [reflexivity|]. apply Qnot_le_lt. intros C.
      apply Qle_bool_iff in C. congruence. }
  unfold level_of.
  destruct (Hdec 5%Q) as [[-> H5] | [-> H5]]; [left; auto|].
  destruct (Hdec 4%Q) as [[-> H4] | [-> H4]]; [right; left; auto|].
  destruct (Hdec 3%Q) as [[-> H3] | [-> H3]]; [right; right; left; auto|].
  right; right; right; auto.
Qed.

Lemma level_of_compat (a b : Q) : (a == b)%Q -> level_of a = level_of b.
Proof.
  intros E. unfold level_of.
  assert (H : forall k, Qle_bool k a = Qle_bool k b).
  { intros k. apply eq_true_iff_eq. rewrite !Qle_bool_iff, E. reflexivity. }
  rewrite !H. reflexivity.
Qed.

Lemma generate_esg_analysis_returns (g : Loaded) (row : Row) (m : metrics) :
  (forall w, compute g row w = (Returned m, w)) ->
  forall w, generate_esg_analysis g (Some row) w
            = (Returned (report (stock_name row) (stock_code row)
                                (listing_date row) m (level_of (avg_value m))), w).
Proof.
  intros Hm w. unfold generate_esg_analysis, try_except, bind. rewrite Hm.
  reflexivity.
Qed.

(** C5.  For every record, [compute] returns metrics, and the level
    written into the report is [level_of] of their average alone: 5 or
    more gives Excellent, 4 or more Good, 3 or more Moderate, anything
    lower NeedsImprovement, so that it is always one of the four; equal
    averages give the same level. *)
Theorem tier_from_average (g : Loaded) (row : Row) (w : World) :
  exists m,
    compute g row w = (Returned m, w) /\
    generate_esg_analysis g (Some row) w
    = (Returned (report (stock_name row) (stock_code row) (listing_date row)
                        m (level_of (avg_value m))), w) /\
    (forall avg,
       ((5 <= avg)%Q /\ level (level_of avg) = Excellent) \/
       ((4 <= avg)%Q /\ (avg < 5)%Q /\ level (level_of avg) = Good) \/
       ((3 <= avg)%Q /\ (avg < 4)%Q /\ level (level_of avg) = Moderate) \/
       ((avg < 3)%Q /\ level (level_of avg) = NeedsImprovement)) /\
    (forall a b, (a == b)%Q -> level_of a = level_of b).
Proof.
  destruct (compute_returns g row) as (m & Hm & _).
  exists m. split; [apply Hm|].
  split; [apply generate_esg_analysis_returns; exact Hm|].
  split; [exact level_of_cases | exact level_of_compat].
Qed.

Lemma hd_quant (items : list esg_item) :
  hd 0 (List.map item_quant items) = item_quant (hd (mkItem 0 PyNone 0) items).
Proof. exact (hd_map item_quant items (mkItem 0 PyNone 0)). Qed.

Lemma last_quant (items : list esg_item) :
  last (List.map item_quant items) 0
  = item_quant (last items (mkItem 0 PyNone 0)).
Proof. exact (last_map item_quant items (mkItem 0 PyNone 0)). Qed.

(** C6.  For every record (the supported years being in increasing
    order), the valid items are in chronological order, and the trend
    is Stable when there are fewer than three of them; with three or
    more it compares the score of the last valid item with that of the
    first: Rising if larger, Falling if smaller, Stable if equal. *)
Theorem trend_from_first_and_last_valid (g : Loaded) (row : Row) (w : World) :
  StronglySorted Z.lt (years g) ->
  exists m,
    compute g row w = (Returned m, w) /\
    StronglySorted Z.lt (List.map item_year (valid_items g row)) /\
    let n := List.length (valid_items g row) in
    let first := item_quant (hd (mkItem 0 PyNone 0) (valid_items g row)) in
    let latest := item_quant (last (valid_items g row) (mkItem 0 PyNone 0)) in
    ((n < 3)%nat /\ trend m = Stable) \/
    ((3 <= n)%nat /\ first < latest /\ trend m = Rising) \/
    ((3 <= n)%nat /\ latest < first /\ trend m = Falling) \/
    ((3 <= n)%nat /\ latest = first /\ trend m = Stable).
Proof.
  intros Hsorted. destruct (compute_returns g row) as (m & Hm & Hspec).
  exists m. split; [apply Hm|].
  split; [apply items_years_sorted; exact Hsorted|].
  cbv zeta.
  assert (Ht : trend m =
             (if 3 <=? Z.of_nat (List.length (quant_values g row))
              then if hd 0 (quant_values g row) <? last (quant_values g row) 0
                   then Rising
                   else if last (quant_values g row) 0 <? hd 0 (quant_values g row)
                        then Falling
                        else Stable
              else Stable)).
  { destruct (esg_data g row) as [|it items] eqn:E.
    - subst m. unfold quant_values. rewrite E. reflexivity.
    - destruct Hspec as (_ & _ & _ & Ht). exact Ht. }
  rewrite quant_values_valid_items in Ht.
  rewrite length_map in Ht.
  rewrite !hd_quant, !last_quant in Ht.
  rewrite Ht.
  destruct (Z.leb_spec 3 (Z.of_nat (List.length (valid_items g row))));
    [|left; split; [lia | reflexivity]].
  right.
  destruct (Z.ltb_spec (item_quant (hd (mkItem 0 PyNone 0) (valid_items g row)))
                       (item_quant (last (valid_items g row) (mkItem 0 PyNone 0))));
    [left; repeat split; [lia | assumption]|].
  right.
  destruct (Z.ltb_spec (item_quant (last (valid_items g row) (mkItem 0 PyNone 0)))
                       (item_quant (hd (mkItem 0 PyNone 0) (valid_items g row))));
    [left; repeat split; [lia | assumption]|].
  right. repeat split; lia.
Qed.

Lemma years_regular_sorted : StronglySorted Z.lt years_regular.
Proof.
  unfold years_regular. cbn.
  repeat (constructor; [|repeat (constructor; [reflexivity|]); constructor]).
  constructor.
Qed.

Lemma trend_from_first_and_last_valid_witness :
  StronglySorted Z.lt (years data_scenario_A) /\
  exists m,
    compute data_scenario_A row_scenario_A quiet_world = (Returned m, quiet_world) /\
    StronglySorted Z.lt
      (List.map item_year (valid_items data_scenario_A row_scenario_A)) /\
    let n := List.length (valid_items data_scenario_A row_scenario_A) in
    let first :=
      item_quant (hd (mkItem 0 PyNone 0)
                     (valid_items data_scenario_A row_scenario_A)) in
    let latest :=
      item_quant (last (valid_items data_scenario_A row_scenario_A)
                       (mkItem 0 PyNone 0)) in
    ((n < 3)%nat /\ trend m = Stable) \/
    ((3 <= n)%nat /\ first < latest /\ trend m = Rising) \/
    ((3 <= n)%nat /\ latest < first /\ trend m = Falling) \/
    ((3 <= n)%nat /\ latest = first /\ trend m = Stable).
Proof.
  split; [vm_compute; repeat constructor|].
  apply (trend_from_first_and_last_valid data_scenario_A row_scenario_A quiet_world).
  vm_compute; repeat constructor.
Defined.

(** ** Narrative and lookup *)

(** C7.  [generate_esg_analysis] is pure: for every table and every
    record (or none) there is one text that it returns in every world,
    whatever the clock and the messages shown so far, and it leaves the
    world as it was; two calls with the same argument give the same
    text. *)
Theorem generate_esg_analysis_pure (g : Loaded) (company_data : option Row) :
  exists text,
    forall w, generate_esg_analysis g company_data w = (Returned text, w).
Proof.
  destruct company_data as [row|].
  - destruct (compute_returns g row) as (m & Hm & _).
    eexists. apply generate_esg_analysis_returns. exact Hm.
  - exists placeholder_report. reflexivity.
Qed.

(** C8.  For no selection, an empty one or the sentinel 请选择企业,
    [get_company_by_selection] returns [None] without raising and
    without a message; [generate_esg_analysis] of [None] returns the
    placeholder text, which has a title line and one section heading. *)
Theorem no_selection_gives_placeholder (g : Loaded) (w : World) :
  get_company_by_selection g None w = (Returned None, w) /\
  get_company_by_selection g (Some []) w = (Returned None, w) /\
  get_company_by_selection g (Some no_selection) w = (Returned None, w) /\
  generate_esg_analysis g None w = (Returned placeholder_report, w) /\
  split newline placeholder_report
  = [u8 "# 暂无企业数据"; []; u8 "## 请选择企业后查看详细分析报告"].
Proof.
  split; [reflexivity|]. split; [reflexivity|].
  split.
  { unfold get_company_by_selection, try_except.
    rewrite eqb_refl, orb_true_r. reflexivity. }
  split; [reflexivity|].
  vm_compute. reflexivity.
Qed.

Lemma parse_text_not_digits (s : str) :
  isdigit (replace [46%N] [] s) = false -> parse_quant (PyStr s) = 0.
Proof. intros H. cbn [parse_quant]. unfold parse_text. rewrite H. reflexivity. Qed.

Lemma valid_is_nonzero (g : Loaded) (row : Row) :
  quant_values g row
  = List.map item_quant
      (filter (fun it => negb (item_quant it =? 0)) (esg_data g row)).
Proof.
  rewrite quant_values_valid_items. unfold valid_items. f_equal.
  pose proof (esg_data_bounds g row) as Hb.
  induction Hb as [|it items Hit _ IH]; [reflexivity|].
  cbn [filter]. rewrite IH.
  destruct (Z.ltb_spec 0 (item_quant it)), (Z.eqb_spec (item_quant it) 0);
    try reflexivity; lia.
Qed.

(** C9.  A missing cell and a text that is not a number parse to 0, and
    the valid scores are exactly the scores of the items whose score is
    not 0; hence, for a record with at least one valid score, the
    average, the maximum and the minimum are all at least 1. *)
Theorem valid_scores_at_least_one (g : Loaded) (row : Row) (w : World) :
  quant_values g row <> [] ->
  parse_quant PyNaN = 0 /\
  parse_quant PyNone = 0 /\
  (forall s, isdigit (replace [46%N] [] s) = false -> parse_quant (PyStr s) = 0) /\
  quant_values g row
  = List.map item_quant
      (filter (fun it => negb (item_quant it =? 0)) (esg_data g row)) /\
  exists m,
    compute g row w = (Returned m, w) /\
    (1 <= avg_value m)%Q /\ 1 <= max_value m /\ 1 <= min_value m.
Proof.
  intros Hvs.
  split; [reflexivity|]. split; [reflexivity|].
  split; [exact parse_text_not_digits|].
  split; [apply valid_is_nonzero|].
  destruct (compute_returns g row) as (m & Hm & Hspec).
  exists m. split; [apply Hm|].
  pose proof (quant_values_bounds g row) as Hb.
  destruct (esg_data g row) as [|it items] eqn:E.
  { exfalso. apply Hvs. unfold quant_values. rewrite E. reflexivity. }
  destruct (quant_values g row) as [|x r]; [congruence|].
  destruct Hspec as ((_ & Havg & Hmax & Hmin) & _).
  inversion Hb as [|? ? Hx Hr]; subst.
  split; [exact Havg|]. split.
  - rewrite Hmax. pose proof (py_max_ge x r). lia.
  - rewrite Hmin. apply py_min_ge; [lia|].
    eapply Forall_impl; [|exact Hr]. cbv beta. intros; lia.
Qed.

Lemma valid_scores_at_least_one_witness :
  quant_values data_scenario_A row_scenario_A <> [] /\
  parse_quant PyNaN = 0 /\
  parse_quant PyNone = 0 /\
  (forall s, isdigit (replace [46%N] [] s) = false -> parse_quant (PyStr s) = 0) /\
  quant_values data_scenario_A row_scenario_A
  = List.map item_quant
      (filter (fun it => negb (item_quant it =? 0))
              (esg_data data_scenario_A row_scenario_A)) /\
  exists m,
    compute data_scenario_A row_scenario_A quiet_world = (Returned m, quiet_world) /\
    (1 <= avg_value m)%Q /\ 1 <= max_value m /\ 1 <= min_value m.
Proof.
  split; [vm_compute; discriminate|].
  apply (valid_scores_at_least_one data_scenario_A row_scenario_A quiet_world).
  vm_compute; discriminate.
Defined.

(* ---- the lookup ---- *)

Lemma filter_find {A} (f : A -> bool) (l : list A) :
  match find f l with
  | Some x => exists rest, filter f l = x :: rest
  | None => filter f l = []
  end.
Proof.
  induction l as [|y l IH]; [reflexivity|]. cbn [find filter].
  destruct (f y); [eauto | exact IH].
Qed.

(** C3, as amended.  For every selection that is neither empty nor the
    sentinel, and a table with at least one row, the lookup returns,
    without raising: (1) when the selection has a bracketed part, the
    first row whose code equals it; (2) only when it has no bracketed
    part, the first row whose name equals the text before the first
    opening bracket; (3) when that found nothing, the first row whose
    display name equals the whole selection; (4) otherwise the first
    row of the table, after a warning.  A bracketed code that matches
    no row is not followed by a match on the name. *)
Theorem lookup_order (g : Loaded) (s : str) (w : World) :
  s <> [] -> s <> no_selection -> df g <> [] ->
  get_company_by_selection g (Some s) w =
    match match re_search_bracket s with
          | Some code => first_with stock_code code (df g)
          | None => first_with stock_name (hd [] (split bracket_open s)) (df g)
          end with
    | Some r => (Returned (Some r), w)
    | None =>
        match first_with show_name s (df g) with
        | Some r => (Returned (Some r), w)
        | None =>
            (Returned (head (df g)),
             with_message w Warning
               (u8 "[表情] 未找到" ++ s ++ u8 "的精确数据，使用第一条数据"))
        end
    end.
Proof.
  intros Hs Hsel Hdf.
  unfold get_company_by_selection, try_except.
  assert (E1 : is_empty s = false) by (destruct s; [congruence | reflexivity]).
  assert (E2 : PyStr.eqb s no_selection = false).
  { destruct (PyStr.eqb s no_selection) eqn:E; [|reflexivity].
    apply eqb_eq in E. congruence. }
  rewrite E1, E2. cbn [orb].
  unfold lookup_body, first_with.
  set (primary := match re_search_bracket s with
                  | Some code => filter (fun r => PyStr.eqb (stock_code r) code) (df g)
                  | None => filter (fun r => PyStr.eqb (stock_name r)
                                       (hd [] (split bracket_open s))) (df g)
                  end).
  set (found := match re_search_bracket s with
                | Some code => find (fun r => PyStr.eqb (stock_code r) code) (df g)
                | None => find (fun r => PyStr.eqb (stock_name r)
                                   (hd [] (split bracket_open s))) (df g)
                end).
  assert (Hprim : match found with
                  | Some x => exists rest, primary = x :: rest
                  | None => primary = []
                  end).
  { unfold found, primary. destruct (re_search_bracket s); apply filter_find. }
  destruct found as [r|].
  - destruct Hprim as (rest & ->). reflexivity.
  - rewrite Hprim. cbn [is_empty].
    pose proof (filter_find (fun r => PyStr.eqb (show_name r) s) (df g)) as Hshow.
    destruct (find _ (df g)) as [r|].
    + destruct Hshow as (rest & ->). reflexivity.
    + rewrite Hshow. cbn [is_empty].
      destruct (df g) as [|r0 rows]; [congruence|]. reflexivity.
Qed.

Lemma lookup_order_witness :
  let s := u8 "中国平安（999999）" in
  s <> [] /\ s <> no_selection /\ df sample_data <> [] /\
  get_company_by_selection sample_data (Some s) quiet_world =
    match match re_search_bracket s with
          | Some code => first_with stock_code code (df sample_data)
          | None => first_with stock_name (hd [] (split bracket_open s))
                               (df sample_data)
          end with
    | Some r => (Returned (Some r), quiet_world)
    | None =>
        match first_with show_name s (df sample_data) with
        | Some r => (Returned (Some r), quiet_world)
        | None =>
            (Returned (head (df sample_data)),
             with_message quiet_world Warning
               (u8 "[表情] 未找到" ++ s ++ u8 "的精确数据，使用第一条数据"))
        end
    end.
Proof.
  cbv zeta.
  split; [vm_compute; discriminate|].
  split; [vm_compute; discriminate|].
  split; [vm_compute; discriminate|].
  apply (lookup_order sample_data (u8 "中国平安（999999）") quiet_world);
    vm_compute; discriminate.
Defined.

Lemma lookup_skips_name_after_bracket :
  let s := u8 "中国平安（999999）" in
  re_search_bracket s = Some (u8 "999999") /\
  hd [] (split bracket_open s) = u8 "中国平安" /\
  first_with stock_name (u8 "中国平安") (df sample_data) = nth_error sample_df 1 /\
  get_company_by_selection sample_data (Some s) quiet_world
  = (Returned (nth_error sample_df 0),
     with_message quiet_world Warning
       (u8 "[表情] 未找到中国平安（999999）的精确数据，使用第一条数据")) /\
  fst (get_company_by_selection
         (mkLoaded [] years_regular [] [] []) (Some s) quiet_world)
  = Raised (mkExn IndexError (u8 "single positional indexer is out-of-bounds")).
Proof.
  cbv zeta.
  split; [vm_compute; reflexivity|].
  split; [vm_compute; reflexivity|].
  split; [vm_compute; reflexivity|].
  split; vm_compute; reflexivity.
Qed.

(** ** Rendering *)

Lemma prefix_literals :
  u8 "一、" = [19968; 12289]%N /\ u8 "1." = [49; 46]%N /\
  u8 "（一）" = [65288; 19968; 65289]%N /\ u8 "2." = [50; 46]%N /\
  u8 "- " = [45; 32]%N /\ u8 "• " = [8226; 32]%N.
Proof. vm_compute. repeat split. Qed.

Lemma startswith_cons (x : N) (p : str) (c : N) (l : str) :
  startswith (x :: p) (c :: l) = ((x =? c)%N && startswith p l).
Proof. reflexivity. Qed.

Section RenderFacts.

Context {lib : ReportLab}.

Lemma styles_distinct :
  h2_style <> h3_style /\ h2_style <> list_style /\ h2_style <> body_style /\
  h3_style <> list_style /\ h3_style <> body_style /\ list_style <> body_style.
Proof.
  repeat split; intros H;
    first [ apply (f_equal fontSize) in H; discriminate H
          | apply (f_equal leftIndent) in H; discriminate H ].
Qed.

Lemma line_style_cases (l : str) :
  (startswith (u8 "一、") l = true \/ startswith (u8 "1.") l = true ->
   line_style l = h2_style) /\
  (startswith (u8 "（一）") l = true \/ startswith (u8 "2.") l = true ->
   line_style l = h3_style) /\
  (startswith (u8 "- ") l = true \/ startswith (u8 "• ") l = true ->
   line_style l = list_style) /\
  (startswith (u8 "一、") l = false -> startswith (u8 "1.") l = false ->
   startswith (u8 "（一）") l = false -> startswith (u8 "2.") l = false ->
   startswith (u8 "- ") l = false -> startswith (u8 "• ") l = false ->
   line_style l = body_style).
Proof.
  unfold line_style.
  destruct prefix_literals as (-> & -> & -> & -> & -> & ->).
  destruct l as [|c l'].
  { cbn [startswith orb]. repeat split; intros; try reflexivity;
      match goal with H : _ \/ _ |- _ => destruct H; discriminate end. }
  rewrite !startswith_cons.
  destruct (N.eqb_spec 19968 c) as [<-|]; [cbn [N.eqb Pos.eqb andb orb]|];
  [|destruct (N.eqb_spec 49 c) as [<-|]; [cbn [N.eqb Pos.eqb andb orb]|];
  [|destruct (N.eqb_spec 65288 c) as [<-|]; [cbn [N.eqb Pos.eqb andb orb]|];
  [|destruct (N.eqb_spec 50 c) as [<-|]; [cbn [N.eqb Pos.eqb andb orb]|];
  [|destruct (N.eqb_spec 45 c) as [<-|]; [cbn [N.eqb Pos.eqb andb orb]|];
  [|destruct (N.eqb_spec 8226 c) as [<-|]; [cbn [N.eqb Pos.eqb andb orb]|]]]]]];
  repeat match goal with
         | |- context [startswith ?p l'] => destruct (startswith p l')
         end;
  cbn [andb orb];
  (split; [|split; [|split]]); intros;
  repeat match goal with H : _ \/ _ |- _ => destruct H end;
  try discriminate; reflexivity.
Qed.

Lemma line_element_cases (line : str) :
  (strip line = [] -> line_element line = ret (Spacer 1 8)) /\
  (strip line <> [] ->
   line_element line = Paragraph (strip line) (line_style (strip line))).
Proof.
  unfold line_element. destruct (strip line) as [|c l]; cbn [is_empty]; split;
    intros H; congruence.
Qed.

(** C4, the defect.  The constructions of the paragraphs of the minimal
    document stand in the handler of the outer [try], outside the
    inner one: when [Paragraph] rejects the title of the styled
    document and also the first line of the minimal one (both carry the
    company name), [generate_pdf_report] raises the second exception
    instead of returning bytes, after the error message of the first. *)
Theorem generate_pdf_report_can_raise (analysis_content : option str)
      (company_name stock_code : str) (w : World) (e1 e2 : exn) :
  paragraph_error (company_name ++ u8 "(" ++ stock_code
                   ++ u8 ") ESG数字化转型分析报告") title_style = Some e1 ->
  paragraph_error (company_name ++ u8 " ESG分析报告") basic_style = Some e2 ->
  generate_pdf_report analysis_content company_name stock_code w
  = (Raised e2, with_message w Error (u8 "[表情] PDF生成失败：" ++ exn_msg e1)).
Proof.
  intros H1 H2.
  unfold generate_pdf_report, try_except, styled_render, bind at 1.
  unfold Paragraph at 1. rewrite H1. unfold raise at 1.
  unfold fallback_render, bind at 1, st_error, st_message, bind at 1.
  unfold Paragraph at 1. rewrite H2. reflexivity.
Qed.

End RenderFacts.

(** C10.  The element made of a line is decided by the stripped line
    alone: a blank one gives a spacer, any other one a paragraph whose
    style is fixed by its prefix.  一、 or [1.] gives the second-level
    heading (never the list style), （一） or [2.] the third-level
    heading, [- ] or [• ] the list style, and every other line the
    body style; the four styles differ from one another. *)
Theorem line_classifier {lib : ReportLab} (line : str) :
  (strip line = [] -> line_element line = ret (Spacer 1 8)) /\
  (strip line <> [] ->
   line_element line = Paragraph (strip line) (line_style (strip line))) /\
  (forall l,
     (startswith (u8 "一、") l = true \/ startswith (u8 "1.") l = true ->
      line_style l = h2_style) /\
     (startswith (u8 "（一）") l = true \/ startswith (u8 "2.") l = true ->
      line_style l = h3_style) /\
     (startswith (u8 "- ") l = true \/ startswith (u8 "• ") l = true ->
      line_style l = list_style) /\
     (startswith (u8 "一、") l = false -> startswith (u8 "1.") l = false ->
      startswith (u8 "（一）") l = false -> startswith (u8 "2.") l = false ->
      startswith (u8 "- ") l = false -> startswith (u8 "• ") l = false ->
      line_style l = body_style)) /\
  (h2_style <> h3_style /\ h2_style <> list_style /\ h2_style <> body_style /\
   h3_style <> list_style /\ h3_style <> body_style /\
   list_style <> body_style).
Proof.
  destruct (line_element_cases line) as [Hblank Hpara].
  split; [exact Hblank|]. split; [exact Hpara|].
  split; [exact line_style_cases | exact styles_distinct].
Qed.

Lemma generate_pdf_report_can_raise_witness :
  let e := mkExn ValueError
                 (u8 "Parse error: saw </para> instead of expected </b>") in
  @paragraph_error strict_markup
     (u8 "<b>" ++ u8 "(" ++ u8 "000001" ++ u8 ") ESG数字化转型分析报告")
     (@title_style strict_markup) = Some e /\
  @paragraph_error strict_markup (u8 "<b>" ++ u8 " ESG分析报告")
     (@basic_style strict_markup) = Some e /\
  @generate_pdf_report strict_markup None (u8 "<b>") (u8 "000001") quiet_world
  = (Raised e,
     with_message quiet_world Error (u8 "[表情] PDF生成失败：" ++ exn_msg e)).
Proof.
  cbv zeta.
  split; [vm_compute; reflexivity|].
  split; [vm_compute; reflexivity|].
  apply (@generate_pdf_report_can_raise strict_markup None (u8 "<b>")
           (u8 "000001") quiet_world);
    vm_compute; reflexivity.
Defined.

(** The fixed bytes of the third tier start with the signature of a
    PDF file, but the offsets they declare (10, 79 and 173 for the
    three objects, 262 for the table) are not those of the objects and
    of the table in the byte string. *)
Lemma minimal_pdf_layout :
  byte_offset (list_byte_of_string "%PDF-1.4") minimal_pdf 0 = Some 0 /\
  byte_offset (list_byte_of_string "1 0 obj") minimal_pdf 0 = Some 9 /\
  byte_offset (list_byte_of_string "2 0 obj") minimal_pdf 0 = Some 58 /\
  byte_offset (list_byte_of_string "3 0 obj") minimal_pdf 0 = Some 115 /\
  byte_offset (list_byte_of_string "xref") minimal_pdf 0 = Some 186 /\
  List.length minimal_pdf = 328%nat.
Proof. vm_compute. repeat split. Qed.

(* ================================================================== *)
(** * Further properties of the code *)
(* ================================================================== *)

Lemma exponent_nonpos n d :
  0 < n -> 0 < d -> n < 2 ^ 53 * d -> exponent n d <= 0.
Proof.
  intros Hn Hd Hlt.
  destruct (normal_exponent_spec n d Hn Hd) as [Hl _].
  unfold exponent.
  destruct (Z.le_gt_cases (normal_exponent n d) 0) as [|Hpos]; [lia|].
  exfalso. rewrite up_nonneg, dn_nonneg in Hl by lia.
  pose proof (pow2_le 1 (normal_exponent n d) ltac:(lia)) as Hp.
  change (2 ^ 1) with 2 in Hp. change (2 ^ 53) with (2 * 2 ^ 52) in Hlt.
  assert (0 < 2 ^ 52) by zconst.
  nia.
Qed.

(** Rounding a quotient below [2^53] does not cross an integer. *)
Lemma round64_between n d q lo hi :
  0 < n -> 0 < d -> n < 2 ^ 53 * d ->
  lo * d <= n -> n <= hi * d ->
  round64 n d = Some q ->
  (inject_Z lo <= q)%Q /\ (q <= inject_Z hi)%Q.
Proof.
  intros Hn Hd Hlt Hlo Hhi. unfold round64.
  destruct (Z.leb_spec n 0); [lia|].
  pose proof (exponent_nonpos n d Hn Hd Hlt) as He.
  set (e := exponent n d) in *.
  rewrite (up_nonpos e) by assumption.
  destruct (_ <=? _); [discriminate|]. intros [= <-].
  pose proof (dn_pos e) as Hs.
  rewrite !Z.mul_1_r. split.
  - apply Q_of_parts_ge; [assumption|].
    apply round_half_even_lower; [assumption | nia].
  - apply Q_of_parts_le; [assumption|].
    apply round_half_even_upper; [assumption | nia].
Qed.

Lemma round_half_even_1 n : round_half_even n 1 = n.
Proof.
  unfold round_half_even. rewrite Z.mod_1_r, Z.div_1_r. reflexivity.
Qed.

(** An integer below [2^53] is a binary64 number. *)
Lemma round64_exact z :
  0 <= z < 2 ^ 53 -> int_or_zero (round64 z 1) = z.
Proof.
  intros [Hz0 Hz]. unfold round64.
  destruct (Z.leb_spec z 0); [cbn; unfold int_of_float; cbn; lia|].
  pose proof (exponent_nonpos z 1 ltac:(lia) ltac:(lia) ltac:(lia)) as He.
  pose proof (exponent_upper z 1 ltac:(lia) ltac:(lia)) as Hu.
  set (e := exponent z 1) in *.
  rewrite (up_nonpos e) in * by assumption.
  rewrite !Z.mul_1_l, !Z.mul_1_r in *. rewrite round_half_even_1.
  pose proof (dn_pos e) as Hs.
  destruct (Z.leb_spec (2 ^ 1024) (z * dn e)) as [Hov|].
  { exfalso. assert (2 ^ 53 < 2 ^ 1024) by zconst. lia. }
  cbn [int_or_zero]. unfold int_of_float. cbn [Qnum Qden].
  rewrite Z2Pos.id by assumption. apply Z.quot_mul. lia.
Qed.

(** X4.  A parsed score is never negative and never beyond the largest
    float; a negative integer parses to 0; an integer cell below [2^53]
    parses to itself, and so does the float cell of the same value. *)
Theorem parse_quant_integers :
  (forall v, 0 <= parse_quant v <= DBL_MAX) /\
  (forall z, z < 0 -> parse_quant (PyInt z) = 0) /\
  (forall z, 0 <= z < 2 ^ 53 ->
             parse_quant (PyInt z) = z /\ parse_quant (PyFloat (inject_Z z)) = z).
Proof.
  split; [exact parse_quant_bounds|]. split.
  - intros z Hz. cbn [parse_quant]. destruct (Z.leb_spec 0 z); [lia | reflexivity].
  - intros z Hz. split.
    + cbn [parse_quant]. destruct (Z.leb_spec 0 z); [|lia].
      apply round64_exact. exact Hz.
    + cbn [parse_quant].
      assert (Hhi : Qle_bool (inject_Z (10 ^ 16)) (inject_Z z) = false).
      { destruct (Qle_bool _ _) eqn:E; [|reflexivity].
        apply Qle_bool_iff in E. unfold Qle, inject_Z in E. cbn [Qnum Qden] in E.
        assert (2 ^ 53 < 10 ^ 16) by zconst. lia. }
      assert (Hint : int_of_float (inject_Z z) = z).
      { unfold int_of_float, inject_Z. cbn [Qnum Qden]. apply Z.quot_1_r. }
      destruct (Z.eq_dec z 0) as [-> | Hnz]; [reflexivity|].
      assert (C : Qle_bool (1 # 10000) (inject_Z z) = true).
      { apply Qle_bool_iff. unfold Qle, inject_Z. cbn [Qnum Qden]. lia. }
      rewrite C, orb_true_r, Hhi. cbn [negb andb]. exact Hint.
Qed.

(** X1.  The series of a row has one item for each supported year that
    has both columns, in the order of [years], and none for the other
    years; the score of an item is the parsed cell of the score column
    found for its year. *)
Theorem series_follows_years (g : Loaded) (row : Row) :
  List.map item_year (esg_data g row) = filter (has_columns g) (years g) /\
  (List.length (esg_data g row) <= List.length (years g))%nat /\
  Forall (fun it =>
            exists quant_col,
              column_of_year (quant_columns g) (item_year it) = Some quant_col /\
              item_quant it = parse_quant (get (cells row) quant_col (PyInt 0)))
         (esg_data g row).
Proof.
  split; [apply esg_data_years|]. split; [|apply esg_data_items].
  rewrite <- (length_map item_year), esg_data_years. apply filter_length_le.
Qed.

(** X2.  For a record with a valid score, the maximum and the minimum
    returned are valid scores of the record, and every valid score
    lies between them. *)
Theorem extrema_of_valid_scores (g : Loaded) (row : Row) (w : World) :
  quant_values g row <> [] ->
  exists m,
    compute g row w = (Returned m, w) /\
    In (max_value m) (quant_values g row) /\
    In (min_value m) (quant_values g row) /\
    Forall (fun v => min_value m <= v <= max_value m) (quant_values g row).
Proof.
  intros Hvs. destruct (compute_returns g row) as (m & Hm & Hspec).
  exists m. split; [apply Hm|].
  destruct (esg_data g row) as [|it items] eqn:E.
  { exfalso. apply Hvs. unfold quant_values. rewrite E. reflexivity. }
  destruct (quant_values g row) as [|x r]; [congruence|].
  destruct Hspec as ((_ & _ & -> & ->) & _).
  destruct (py_max_spec x r) as [Hin1 Hall1].
  destruct (py_min_spec x r) as [Hin2 Hall2].
  split; [exact Hin1|]. split; [exact Hin2|].
  rewrite Forall_forall in *. intros v Hv.
  specialize (Hall1 v Hv). specialize (Hall2 v Hv). cbv beta in *. lia.
Qed.

Lemma extrema_of_valid_scores_witness :
  quant_values data_scenario_A row_scenario_A <> [] /\
  exists m,
    compute data_scenario_A row_scenario_A quiet_world = (Returned m, quiet_world) /\
    In (max_value m) (quant_values data_scenario_A row_scenario_A) /\
    In (min_value m) (quant_values data_scenario_A row_scenario_A) /\
    Forall (fun v => min_value m <= v <= max_value m)
           (quant_values data_scenario_A row_scenario_A).
Proof.
  split; [vm_compute; discriminate|].
  apply (extrema_of_valid_scores data_scenario_A row_scenario_A quiet_world).
  vm_compute; discriminate.
Defined.

(** X3.  For a record with a valid score, all valid scores being below
    [2^53], the average returned (a float) lies between the minimum
    and the maximum: rounding does not take it out of their range. *)
Theorem average_between_extrema (g : Loaded) (row : Row) (w : World) :
  quant_values g row <> [] ->
  forallb (fun v => v <? 2 ^ 53) (quant_values g row) = true ->
  exists m,
    compute g row w = (Returned m, w) /\
    (inject_Z (min_value m) <= avg_value m)%Q /\
    (avg_value m <= inject_Z (max_value m))%Q.
Proof.
  intros Hvs Hsmall. destruct (compute_returns g row) as (m & Hm & Hspec).
  exists m. split; [apply Hm|].
  pose proof (quant_values_bounds g row) as Hb.
  destruct (esg_data g row) as [|it items] eqn:E.
  { exfalso. apply Hvs. unfold quant_values. rewrite E. reflexivity. }
  destruct (quant_values g row) as [|x r] eqn:Evs; [congruence|].
  destruct Hspec as ((Havg & _ & -> & ->) & _).
  destruct (py_max_spec x r) as [Hin1 Hall1].
  destruct (py_min_spec x r) as [Hin2 Hall2].
  assert (Hrange : Forall (fun v => py_min x r <= v <= py_max x r) (x :: r)).
  { rewrite Forall_forall in *. intros v Hv.
    specialize (Hall1 v Hv). specialize (Hall2 v Hv). cbv beta in *. lia. }
  pose proof (py_sum_bounds _ _ _ Hrange) as [Hlo Hhi].
  pose proof (py_sum_bounds _ _ _ Hb) as [Hpos _].
  assert (Hlen : 0 < Z.of_nat (List.length (x :: r))) by (cbn [List.length]; lia).
  assert (Hmax : py_max x r < 2 ^ 53).
  { rewrite forallb_forall in Hsmall. apply Z.ltb_lt, Hsmall. exact Hin1. }
  apply (round64_between (py_sum (x :: r)) (Z.of_nat (List.length (x :: r))));
    try assumption; nia.
Qed.

Lemma average_between_extrema_witness :
  quant_values data_scenario_A row_scenario_A <> [] /\
  forallb (fun v => v <? 2 ^ 53)
          (quant_values data_scenario_A row_scenario_A) = true /\
  exists m,
    compute data_scenario_A row_scenario_A quiet_world = (Returned m, quiet_world) /\
    (inject_Z (min_value m) <= avg_value m)%Q /\
    (avg_value m <= inject_Z (max_value m))%Q.
Proof.
  split; [vm_compute; discriminate|].
  split; [vm_compute; reflexivity|].
  apply (average_between_extrema data_scenario_A row_scenario_A quiet_world).
  - vm_compute; discriminate.
  - vm_compute; reflexivity.
Defined.

Lemma last_filter_valid {A} (p : A -> bool) (l : list A) (d : A) :
  l <> [] -> p (last l d) = true -> last (filter p l) d = last l d.
Proof.
  induction l as [|x [|y l] IH]; intros Hne Hp; [congruence | |].
  - cbn [last] in Hp. cbn [filter]. rewrite Hp. reflexivity.
  - change (last (x :: y :: l) d) with (last (y :: l) d) in *.
    cbn [filter]. specialize (IH ltac:(discriminate) Hp).
    destruct (p x); [|exact IH].
    cbn [filter] in IH |- *.
    destruct (p y) eqn:Ey.
    + exact IH.
    + destruct (filter p l) eqn:Ef; [|exact IH].
      exfalso. cbn [last] in IH.
      destruct l as [|z l]; [cbn [last] in Hp; congruence|].
      assert (Hin : In (last (y :: z :: l) d) (filter p (z :: l))).
      { apply filter_In. split; [|exact Hp].
        change (last (y :: z :: l) d) with (last (z :: l) d).
        apply last_In. discriminate. }
      rewrite Ef in Hin. contradiction.
Qed.

(** X5.  When the score of the last year that has columns is valid, the
    latest score and year returned are those of the chronologically
    last valid item. *)
Theorem latest_is_last_valid_when_valid (g : Loaded) (row : Row) (w : World) :
  0 < item_quant (last (esg_data g row) (mkItem 0 PyNone 0)) ->
  exists m,
    compute g row w = (Returned m, w) /\
    latest_value m = item_quant (last (valid_items g row) (mkItem 0 PyNone 0)) /\
    latest_year m
    = YearInt (item_year (last (valid_items g row) (mkItem 0 PyNone 0))).
Proof.
  intros Hlast. destruct (compute_returns g row) as (m & Hm & Hspec).
  exists m. split; [apply Hm|].
  unfold valid_items.
  destruct (esg_data g row) as [|it items] eqn:E; [cbn in Hlast; lia|].
  destruct Hspec as (_ & -> & -> & _).
  rewrite last_filter_valid; [split; reflexivity | discriminate |].
  apply Z.ltb_lt. exact Hlast.
Qed.

Lemma latest_is_last_valid_when_valid_witness :
  0 < item_quant (last (esg_data data_scenario_A row_scenario_A)
                       (mkItem 0 PyNone 0)) /\
  exists m,
    compute data_scenario_A row_scenario_A quiet_world = (Returned m, quiet_world) /\
    latest_value m
    = item_quant (last (valid_items data_scenario_A row_scenario_A)
                       (mkItem 0 PyNone 0)) /\
    latest_year m
    = YearInt (item_year (last (valid_items data_scenario_A row_scenario_A)
                               (mkItem 0 PyNone 0))).
Proof.
  split; [vm_compute; reflexivity|].
  apply (latest_is_last_valid_when_valid data_scenario_A row_scenario_A quiet_world).
  vm_compute; reflexivity.
Defined.

Lemma bracket_literals :
  u8 "（" = [bracket_open] /\ u8 "）" = [bracket_close] /\
  ~ In bracket_open no_selection.
Proof.
  split; [vm_compute; reflexivity|]. split; [vm_compute; reflexivity|].
  vm_compute. intuition discriminate.
Qed.

Lemma group_until_close_code (code rest : str) :
  ~ In bracket_close code -> ~ In newline code ->
  group_until_close (code ++ bracket_close :: rest) = Some code.
Proof.
  induction code as [|c code IH]; intros Hc Hn.
  - cbn [app group_until_close]. rewrite N.eqb_refl. reflexivity.
  - cbn [app group_until_close].
    destruct (N.eqb_spec c bracket_close) as [->|]; [exfalso; apply Hc; left; reflexivity|].
    destruct (N.eqb_spec c newline) as [->|]; [exfalso; apply Hn; left; reflexivity|].
    rewrite IH; [reflexivity | |]; intros H; [apply Hc | apply Hn]; right; exact H.
Qed.

(** The pattern finds the code of a display name. *)
Lemma re_search_show_name (r : Row) :
  ~ In bracket_open (stock_name r) ->
  ~ In bracket_close (stock_code r) -> ~ In newline (stock_code r) ->
  re_search_bracket (show_name r) = Some (stock_code r).
Proof.
  intros Hname Hc Hn. unfold show_name.
  destruct bracket_literals as (-> & -> & _).
  induction (stock_name r) as [|c name IH].
  - cbn [app re_search_bracket]. rewrite N.eqb_refl.
    rewrite group_until_close_code by assumption. reflexivity.
  - cbn [app re_search_bracket].
    destruct (N.eqb_spec c bracket_open) as [->|];
      [exfalso; apply Hname; left; reflexivity|].
    apply IH. intros H. apply Hname. right. exact H.
Qed.

Lemma selection_is_proper (s : str) :
  In bracket_open s ->
  (is_empty s || PyStr.eqb s no_selection) = false.
Proof.
  intros Hin. destruct s as [|c s]; [contradiction|]. cbn [is_empty orb].
  destruct (PyStr.eqb (c :: s) no_selection) eqn:E; [|reflexivity].
  apply eqb_eq in E. rewrite E in Hin.
  destruct bracket_literals as (_ & _ & Hno). contradiction.
Qed.

(** A selection with a bracketed code carried by some row gives the
    first such row, silently. *)
Lemma lookup_by_code (g : Loaded) (s code : str) (r : Row) (w : World) :
  (is_empty s || PyStr.eqb s no_selection) = false ->
  re_search_bracket s = Some code ->
  first_with stock_code code (df g) = Some r ->
  get_company_by_selection g (Some s) w = (Returned (Some r), w).
Proof.
  intros Hs Hcode Hfind.
  unfold get_company_by_selection, try_except. rewrite Hs.
  unfold lookup_body. rewrite Hcode.
  pose proof (filter_find (fun r => PyStr.eqb (stock_code r) code) (df g)) as Hf.
  unfold first_with in Hfind. rewrite Hfind in Hf. destruct Hf as (rest & ->).
  reflexivity.
Qed.

(** X6.  Selecting the display name of a row of the table (a name
    without opening bracket, a code without closing bracket or line
    break) returns, silently, the first row of the table that carries
    the same code; it is the row itself when no other row shares its
    code. *)
Theorem offered_selection_resolves (g : Loaded) (r : Row) (w : World) :
  In r (df g) ->
  ~ In bracket_open (stock_name r) ->
  ~ In bracket_close (stock_code r) -> ~ In newline (stock_code r) ->
  exists r',
    get_company_by_selection g (Some (show_name r)) w = (Returned (Some r'), w) /\
    first_with stock_code (stock_code r) (df g) = Some r' /\
    stock_code r' = stock_code r /\
    ((forall r2, In r2 (df g) -> stock_code r2 = stock_code r -> r2 = r) -> r' = r).
Proof.
  intros Hin Hname Hc Hn.
  destruct (first_with stock_code (stock_code r) (df g)) as [r'|] eqn:E.
  - unfold first_with in E. pose proof (find_some _ _ E) as [Hin' Heq].
    apply eqb_eq in Heq.
    exists r'. split; [|split; [reflexivity | split; [exact Heq | auto]]].
    apply (lookup_by_code g _ (stock_code r)); [| apply re_search_show_name; assumption | exact E].
    apply selection_is_proper. unfold show_name.
    destruct bracket_literals as (-> & _ & _).
    apply in_or_app. right. left. reflexivity.
  - exfalso. unfold first_with in E.
    pose proof (find_none _ _ E r Hin) as Hf. cbv beta in Hf.
    rewrite eqb_refl in Hf. discriminate.
Qed.

Lemma offered_selection_resolves_witness :
  let r := sample_row "002594" "比亚迪" "2011-06-30" "A" "AA" (PyInt 4) (PyInt 5) in
  In r (df sample_data) /\
  ~ In bracket_open (stock_name r) /\
  ~ In bracket_close (stock_code r) /\ ~ In newline (stock_code r) /\
  exists r',
    get_company_by_selection sample_data (Some (show_name r)) quiet_world
    = (Returned (Some r'), quiet_world) /\
    first_with stock_code (stock_code r) (df sample_data) = Some r' /\
    stock_code r' = stock_code r /\
    ((forall r2, In r2 (df sample_data) -> stock_code r2 = stock_code r -> r2 = r)
     -> r' = r).
Proof.
  cbv zeta.
  assert (H1 : In (sample_row "002594" "比亚迪" "2011-06-30" "A" "AA" (PyInt 4) (PyInt 5))
                  (df sample_data)).
  { cbn [df sample_data sample_df In]. right. right. right. left. reflexivity. }
  assert (H2 : ~ In bracket_open
                 (stock_name (sample_row "002594" "比亚迪" "2011-06-30" "A" "AA"
                                         (PyInt 4) (PyInt 5)))).
  { vm_compute. intuition discriminate. }
  assert (H3 : ~ In bracket_close
                 (stock_code (sample_row "002594" "比亚迪" "2011-06-30" "A" "AA"
                                         (PyInt 4) (PyInt 5)))).
  { vm_compute. intuition discriminate. }
  assert (H4 : ~ In newline
                 (stock_code (sample_row "002594" "比亚迪" "2011-06-30" "A" "AA"
                                         (PyInt 4) (PyInt 5)))).
  { vm_compute. intuition discriminate. }
  split; [exact H1|]. split; [exact H2|]. split; [exact H3|]. split; [exact H4|].
  exact (offered_selection_resolves sample_data _ quiet_world H1 H2 H3 H4).
Defined.

(** X7.  On a table with at least one row the lookup never raises and
    shows no error: it returns nothing exactly for no selection, the
    empty one and the sentinel, and otherwise a row of the table; the
    world is unchanged, or one warning is added and the row returned is
    the first of the table. *)
Theorem lookup_is_safe (g : Loaded) (selection : option str) (w : World) :
  df g <> [] ->
  exists res w',
    get_company_by_selection g selection w = (Returned res, w') /\
    (res = None \/ exists r, res = Some r /\ In r (df g)) /\
    (w' = w \/
     exists text, w' = with_message w Warning text /\ res = head (df g)) /\
    (res = None <->
     selection = None \/ selection = Some [] \/ selection = Some no_selection).
Proof.
  intros Hdf. unfold get_company_by_selection, try_except.
  destruct selection as [s|].
  2:{ exists None, w. split; [reflexivity|]. split; [auto|]. split; [auto|].
      split; auto. }
  destruct (is_empty s || PyStr.eqb s no_selection) eqn:Es.
  { exists None, w. split; [reflexivity|]. split; [auto|]. split; [auto|].
    split; [intros _|reflexivity].
    apply orb_true_iff in Es. destruct Es as [Es | Es].
    - destruct s; [auto | discriminate].
    - apply eqb_eq in Es. subst s. auto. }
  assert (Hnot : forall r : Row,
             Some r = None <->
             Some s = None \/ Some s = Some [] \/ Some s = Some no_selection).
  { intros r. split; [discriminate|]. intros [H | [H | H]]; [discriminate | |].
    - injection H as ->. discriminate.
    - injection H as ->. rewrite eqb_refl, orb_true_r in Es. discriminate. }
  unfold lookup_body.
  set (primary := match re_search_bracket s with
                  | Some code => filter (fun r => PyStr.eqb (stock_code r) code) (df g)
                  | None => filter (fun r => PyStr.eqb (stock_name r)
                                       (hd [] (split bracket_open s))) (df g)
                  end).
  assert (Hsub : forall r, In r primary -> In r (df g)).
  { intros r. unfold primary. destruct (re_search_bracket s);
      intros H; apply filter_In in H; tauto. }
  destruct primary as [|r rest].
  - cbn [is_empty].
    destruct (filter (fun r => PyStr.eqb (show_name r) s) (df g)) as [|r rest] eqn:Ef.
    + cbn [is_empty]. destruct (df g) as [|r0 rows] eqn:Edf; [congruence|].
      eexists (Some r0), _. split; [reflexivity|].
      split; [right; exists r0; split; [reflexivity | left; reflexivity]|].
      split; [right; eexists; split; reflexivity|]. apply Hnot.
    + exists (Some r), w. split; [reflexivity|].
      split; [right; exists r; split; [reflexivity|]|].
      { assert (H : In r (filter (fun r => PyStr.eqb (show_name r) s) (df g)))
          by (rewrite Ef; left; reflexivity).
        apply filter_In in H. tauto. }
      split; [auto | apply Hnot].
  - exists (Some r), w. split; [reflexivity|].
    split; [right; exists r; split; [reflexivity | apply Hsub; left; reflexivity]|].
    split; [auto | apply Hnot].
Qed.

Lemma lookup_is_safe_witness :
  df sample_data <> [] /\
  exists res w',
    get_company_by_selection sample_data (Some (u8 "不存在的企业")) quiet_world
    = (Returned res, w') /\
    (res = None \/ exists r, res = Some r /\ In r (df sample_data)) /\
    (w' = quiet_world \/
     exists text, w' = with_message quiet_world Warning text /\
                  res = head (df sample_data)) /\
    (res = None <->
     Some (u8 "不存在的企业") = None \/ Some (u8 "不存在的企业") = Some [] \/
     Some (u8 "不存在的企业") = Some no_selection).
Proof.
  split; [vm_compute; discriminate|].
  apply (lookup_is_safe sample_data (Some (u8 "不存在的企业")) quiet_world).
  vm_compute; discriminate.
Defined.

(** X8.  On an empty table every real selection makes the lookup raise
    an [IndexError]: [iloc[0]] fails in the body, after the warning,
    and again in the handler, after the error message. *)
Theorem lookup_on_empty_table_raises (g : Loaded) (s : str) (w : World) :
  df g = [] -> s <> [] -> s <> no_selection ->
  exists e,
    kind e = IndexError /\
    get_company_by_selection g (Some s) w
    = (Raised e,
       with_message
         (with_message w Warning
            (u8 "[表情] 未找到" ++ s ++ u8 "的精确数据，使用第一条数据"))
         Error (u8 "[表情] 查询出错：" ++ exn_msg e)).
Proof.
  intros Hdf Hs Hsel.
  unfold get_company_by_selection, try_except.
  assert (E1 : is_empty s = false) by (destruct s; [congruence | reflexivity]).
  assert (E2 : PyStr.eqb s no_selection = false).
  { destruct (PyStr.eqb s no_selection) eqn:E; [|reflexivity].
    apply eqb_eq in E. congruence. }
  rewrite E1, E2. cbn [orb]. unfold lookup_body. rewrite Hdf.
  eexists. split; [|destruct (re_search_bracket s); cbn [filter is_empty]; reflexivity].
  reflexivity.
Qed.

Lemma lookup_on_empty_table_raises_witness :
  let g := mkLoaded [] years_regular [] [] [] in
  let s := u8 "平安银行（000001）" in
  df g = [] /\ s <> [] /\ s <> no_selection /\
  exists e,
    kind e = IndexError /\
    get_company_by_selection g (Some s) quiet_world
    = (Raised e,
       with_message
         (with_message quiet_world Warning
            (u8 "[表情] 未找到" ++ s ++ u8 "的精确数据，使用第一条数据"))
         Error (u8 "[表情] 查询出错：" ++ exn_msg e)).
Proof.
  cbv zeta.
  split; [reflexivity|].
  split; [vm_compute; discriminate|].
  split; [vm_compute; discriminate|].
  apply (lookup_on_empty_table_raises (mkLoaded [] years_regular [] [] [])
           (u8 "平安银行（000001）") quiet_world);
    [reflexivity | vm_compute; discriminate | vm_compute; discriminate].
Defined.

Lemma marker_literals :
  u8 "# " = [35; 32]%N /\ u8 "## " = [35; 35; 32]%N /\
  u8 "### " = [35; 35; 35; 32]%N /\
  allowed 35 = false /\ allowed 42 = false /\
  allowed 12289 = false /\ allowed 8226 = false.
Proof. vm_compute. repeat split. Qed.

Lemma replace_absent (c : N) (old new s : str) :
  ~ In c s -> replace (c :: old) new s = s.
Proof.
  unfold replace. induction s as [|x s IH]; intros Hc; [reflexivity|].
  cbn [replace_from startswith].
  destruct (N.eqb_spec c x) as [->|]; [exfalso; apply Hc; left; reflexivity|].
  cbn [andb]. rewrite IH; [reflexivity|]. intros H. apply Hc. right. exact H.
Qed.

Lemma filter_not_in (c : N) (s : str) :
  allowed c = false -> ~ In c (filter allowed s).
Proof. intros Hc H. apply filter_In in H. destruct H as [_ H]. congruence. Qed.

Lemma clean_is_filter (s : str) : clean s = filter allowed s.
Proof.
  unfold clean. destruct marker_literals as (-> & -> & -> & H35 & _).
  pose proof (filter_not_in 35 s H35) as Hno.
  rewrite (replace_absent 35 [32%N] [] (filter allowed s) Hno).
  rewrite (replace_absent 35 [35; 32]%N [] (filter allowed s) Hno).
  apply (replace_absent 35 [35; 35; 32]%N [] (filter allowed s) Hno).
Qed.

(** X9.  The cleaned text is the text without the characters outside
    the allow-list: the three [replace] calls that follow the [re.sub]
    change nothing, their marker [#] being already removed.  Among the
    characters that never get through are [#], the asterisk, the
    ideographic comma 、 and the bullet •. *)
Theorem clean_keeps_allowed_only (analysis_content : str) :
  clean analysis_content = filter allowed analysis_content /\
  forallb allowed (clean analysis_content) = true /\
  ~ In 35%N (clean analysis_content) /\ ~ In 42%N (clean analysis_content) /\
  ~ In 12289%N (clean analysis_content) /\ ~ In 8226%N (clean analysis_content).
Proof.
  destruct marker_literals as (_ & _ & _ & H35 & H42 & H12289 & H8226).
  rewrite clean_is_filter. split; [reflexivity|]. split.
  - apply forallb_forall. intros c Hc. apply filter_In in Hc. tauto.
  - repeat split; apply filter_not_in; assumption.
Qed.

Lemma in_lstrip (c : N) (s : str) : In c (lstrip s) -> In c s.
Proof.
  induction s as [|x s IH]; [auto|]. cbn [lstrip].
  destruct (isspace x); [intros H; right; auto | auto].
Qed.

Lemma in_strip (c : N) (s : str) : In c (strip s) -> In c s.
Proof.
  unfold strip, rstrip. intros H. apply in_rev in H. apply in_lstrip in H.
  apply in_rev in H. apply in_lstrip. exact H.
Qed.

Lemma in_split (sep c : N) (s line : str) :
  In line (split sep s) -> In c line -> In c s.
Proof.
  revert line. induction s as [|x s IH]; intros line Hl Hc.
  - cbn in Hl. destruct Hl as [<- | []]. contradiction.
  - cbn [split] in Hl. destruct (x =? sep)%N.
    + destruct Hl as [<- | Hl]; [contradiction|]. right. eapply IH; eauto.
    + destruct (split sep s) as [|w ws] eqn:E.
      * destruct Hl as [<- | []]. destruct Hc as [<- | []]. left. reflexivity.
      * destruct Hl as [<- | Hl].
        -- destruct Hc as [<- | Hc]; [left; reflexivity|].
           right. apply (IH w); [left; reflexivity | exact Hc].
        -- right. apply (IH line); [right; exact Hl | exact Hc].
Qed.

Lemma startswith_in_second (a b : N) (l : str) :
  startswith [a; b] l = true -> In b l.
Proof.
  destruct l as [|x [|y l]]; cbn [startswith]; try discriminate.
  - rewrite andb_false_r. discriminate.
  - intros H. apply andb_true_iff in H. destruct H as [_ H].
    apply andb_true_iff in H. destruct H as [H _]. apply N.eqb_eq in H.
    subst. right. left. reflexivity.
Qed.

Lemma startswith_in_first (a : N) (p l : str) :
  startswith (a :: p) l = true -> In a l.
Proof.
  destruct l as [|x l]; cbn [startswith]; [discriminate|].
  intros H. apply andb_true_iff in H. destruct H as [H _].
  apply N.eqb_eq in H. subst. left. reflexivity.
Qed.

Section RenderExtras.

Context {lib : ReportLab}.

(** X10.  No line of a cleaned text starts, once stripped, with 一、 or
    with [• ]: the sanitizer has removed 、 and •.  In
    [generate_pdf_report] a line therefore gets the second-level
    heading style only through the prefix [1.], and the list style
    only through the prefix [- ]. *)
Theorem cleaned_lines_lose_two_prefixes (analysis_content line : str) :
  In line (split newline (clean analysis_content)) ->
  startswith (u8 "一、") (strip line) = false /\
  startswith (u8 "• ") (strip line) = false /\
  (line_style (strip line) = h2_style ->
   startswith (u8 "1.") (strip line) = true) /\
  (line_style (strip line) = list_style ->
   startswith (u8 "- ") (strip line) = true).
Proof.
  intros Hline.
  destruct marker_literals as (_ & _ & _ & _ & _ & A12289 & A8226).
  pose proof (filter_not_in 12289 analysis_content A12289) as H12289.
  pose proof (filter_not_in 8226 analysis_content A8226) as H8226.
  rewrite <- clean_is_filter in H12289, H8226.
  assert (Hin : forall c, In c (strip line) -> In c (clean analysis_content)).
  { intros c Hc. apply (in_split newline c _ line Hline). apply in_strip. exact Hc. }
  destruct prefix_literals as (E1 & E2 & E3 & E4 & E5 & E6).
  assert (F1 : startswith (u8 "一、") (strip line) = false).
  { destruct (startswith (u8 "一、") (strip line)) eqn:E; [|reflexivity].
    rewrite E1 in E. apply startswith_in_second in E. exfalso. auto. }
  assert (F2 : startswith (u8 "• ") (strip line) = false).
  { destruct (startswith (u8 "• ") (strip line)) eqn:E; [|reflexivity].
    rewrite E6 in E. apply startswith_in_first in E. exfalso. auto. }
  split; [exact F1|]. split; [exact F2|].
  destruct styles_distinct as (D1 & D2 & D3 & D4 & D5 & D6).
  unfold line_style. rewrite F1, F2. cbn [orb]. rewrite orb_false_r.
  destruct (startswith (u8 "1.") (strip line)); [split; [reflexivity|]|].
  - intros H. exfalso. auto.
  - destruct (startswith (u8 "（一）") (strip line) || startswith (u8 "2.") (strip line)).
    + split; intros H; exfalso; [apply D1 | apply D4]; congruence.
    + destruct (startswith (u8 "- ") (strip line)).
      * split; [intros H; exfalso; apply D2; congruence | reflexivity].
      * split; intros H; exfalso; [apply D3 | apply D6]; congruence.
Qed.

Lemma quiet_bind {A B} (c : M A) (k : A -> M B) :
  quiet c -> (forall a, quiet (k a)) -> quiet (bind c k).
Proof.
  intros Hc Hk w. unfold bind. specialize (Hc w).
  destruct (c w) as [[a | e] w']; cbn [snd] in *; subst; [apply Hk | reflexivity].
Qed.

Lemma quiet_Paragraph text style : quiet (Paragraph text style).
Proof. intros w. unfold Paragraph. destruct (paragraph_error text style); reflexivity. Qed.

Lemma quiet_line_elements lines : quiet (line_elements lines).
Proof.
  induction lines as [|line lines IH]; [intros w; reflexivity|].
  cbn [line_elements]. apply quiet_bind.
  - unfold line_element. destruct (is_empty (strip line));
      [intros w; reflexivity | apply quiet_Paragraph].
  - intros e. apply quiet_bind; [exact IH | intros es w; reflexivity].
Qed.

Lemma quiet_styled_render content name code :
  quiet (styled_render content name code).
Proof.
  unfold styled_render. apply quiet_bind; [apply quiet_Paragraph | intros h].
  apply quiet_bind; [apply quiet_line_elements | intros b].
  apply quiet_bind; [intros w; reflexivity | intros stamp].
  apply quiet_bind; [apply quiet_Paragraph | intros f].
  intros w. reflexivity.
Qed.

(** X11.  When [Paragraph] accepts the four lines of the minimal
    document, [generate_pdf_report] returns bytes for every analysis
    text: those of the styled document, with no message, or, after one
    error message carrying the exception of the styled render, those
    of the minimal document, or else the fixed bytes [minimal_pdf] when
    building the minimal document raises. *)
Theorem render_returns_when_fallback_lines_accepted
        (analysis_content : option str) (company_name stock_code : str) (w : World) :
  paragraph_error (company_name ++ u8 " ESG分析报告") basic_style = None ->
  paragraph_error (u8 "证券代码：" ++ stock_code) basic_style = None ->
  paragraph_error (u8 "ESG整体表现良好，具备数字化转型基础") basic_style = None ->
  paragraph_error (u8 "建议12-24个月完成数字化转型落地") basic_style = None ->
  exists bytes w',
    generate_pdf_report analysis_content company_name stock_code w
    = (Returned bytes, w') /\
    ((w' = w /\
      fst (styled_render analysis_content company_name stock_code w)
      = Returned bytes) \/
     (exists e,
        fst (styled_render analysis_content company_name stock_code w) = Raised e /\
        w' = with_message w Error (u8 "[表情] PDF生成失败：" ++ exn_msg e) /\
        let minimal :=
          doc_build (mkDoc A4 None None None None)
            [ Para (company_name ++ u8 " ESG分析报告") basic_style; Spacer 1 10;
              Para (u8 "证券代码：" ++ stock_code) basic_style; Spacer 1 10;
              Para (u8 "ESG整体表现良好，具备数字化转型基础") basic_style;
              Para (u8 "建议12-24个月完成数字化转型落地") basic_style ] in
        (minimal = Returned bytes \/
         (exists e', minimal = Raised e') /\ bytes = minimal_pdf))).
Proof.
  intros H1 H2 H3 H4.
  unfold generate_pdf_report, try_except.
  pose proof (quiet_styled_render analysis_content company_name stock_code w) as Hq.
  destruct (styled_render analysis_content company_name stock_code w)
    as [[bytes | e] w1] eqn:E; cbn [snd] in Hq; subst w1.
  - exists bytes, w. split; [reflexivity|]. left. split; reflexivity.
  - unfold fallback_render, bind at 1, st_error, st_message.
    unfold bind at 1, Paragraph at 1. rewrite H1. unfold ret at 1.
    unfold bind at 1, Paragraph at 1. rewrite H2. unfold ret at 1.
    unfold bind at 1, Paragraph at 1. rewrite H3. unfold ret at 1.
    unfold bind at 1, Paragraph at 1. rewrite H4. unfold ret at 1.
    unfold try_except, build.
    destruct (doc_build _ _) as [bytes | e'] eqn:Eb.
    + exists bytes. eexists. split; [reflexivity|]. right. exists e.
      split; [reflexivity|]. split; [reflexivity|]. cbv zeta. left. reflexivity.
    + exists minimal_pdf. eexists. split; [reflexivity|]. right. exists e.
      split; [reflexivity|]. split; [reflexivity|]. cbv zeta. right.
      split; [exists e'; reflexivity | reflexivity].
Qed.

(** X12.  An analysis text that is empty or made of white space only is
    rendered as no text at all ([None]): in both cases the default
    content of line 317 is used. *)
Theorem blank_analysis_uses_default (s company_name stock_code : str) (w : World) :
  strip s = [] ->
  generate_pdf_report (Some s) company_name stock_code w
  = generate_pdf_report None company_name stock_code w.
Proof.
  intros Hs. unfold generate_pdf_report, try_except, styled_render.
  rewrite Hs. cbn [is_empty]. rewrite orb_true_r. reflexivity.
Qed.

End RenderExtras.

Lemma render_returns_when_fallback_lines_accepted_witness :
  let name := u8 "平安银行" in
  let code := u8 "000001" in
  @paragraph_error strict_markup (name ++ u8 " ESG分析报告")
    (@basic_style strict_markup) = None /\
  @paragraph_error strict_markup (u8 "证券代码：" ++ code)
    (@basic_style strict_markup) = None /\
  @paragraph_error strict_markup (u8 "ESG整体表现良好，具备数字化转型基础")
    (@basic_style strict_markup) = None /\
  @paragraph_error strict_markup (u8 "建议12-24个月完成数字化转型落地")
    (@basic_style strict_markup) = None /\
  exists bytes w',
    @generate_pdf_report strict_markup (Some (u8 "<b>")) name code quiet_world
    = (Returned bytes, w').
Proof.
  cbv zeta.
  assert (H1 : @paragraph_error strict_markup (u8 "平安银行" ++ u8 " ESG分析报告")
                 (@basic_style strict_markup) = None) by (vm_compute; reflexivity).
  assert (H2 : @paragraph_error strict_markup (u8 "证券代码：" ++ u8 "000001")
                 (@basic_style strict_markup) = None) by (vm_compute; reflexivity).
  assert (H3 : @paragraph_error strict_markup
                 (u8 "ESG整体表现良好，具备数字化转型基础")
                 (@basic_style strict_markup) = None) by (vm_compute; reflexivity).
  assert (H4 : @paragraph_error strict_markup (u8 "建议12-24个月完成数字化转型落地")
                 (@basic_style strict_markup) = None) by (vm_compute; reflexivity).
  split; [exact H1|]. split; [exact H2|]. split; [exact H3|]. split; [exact H4|].
  destruct (@render_returns_when_fallback_lines_accepted strict_markup
              (Some (u8 "<b>")) (u8 "平安银行") (u8 "000001") quiet_world
              H1 H2 H3 H4) as (bytes & w' & E & _).
  exists bytes, w'. exact E.
Defined.

Lemma blank_analysis_uses_default_witness :
  let s := u8 "  
 " in
  strip s = [] /\
  @generate_pdf_report strict_markup (Some s) (u8 "平安银行") (u8 "000001") quiet_world
  = @generate_pdf_report strict_markup None (u8 "平安银行") (u8 "000001") quiet_world.
Proof.
  cbv zeta. split; [vm_compute; reflexivity|].
  apply (@blank_analysis_uses_default strict_markup). vm_compute; reflexivity.
Defined.

Lemma cleaned_lines_lose_two_prefixes_witness :
  let text := u8 "## 一、企业基础信息
• 证券代码" in
  let line := u8 " 一企业基础信息" in
  In line (split newline (clean text)) /\
  startswith (u8 "一、") (strip line) = false /\
  startswith (u8 "• ") (strip line) = false /\
  (@line_style strict_markup (strip line) = @h2_style strict_markup ->
   startswith (u8 "1.") (strip line) = true) /\
  (@line_style strict_markup (strip line) = @list_style strict_markup ->
   startswith (u8 "- ") (strip line) = true).
Proof.
  cbv zeta.
  assert (H : In (u8 " 一企业基础信息")
                 (split newline (clean (u8 "## 一、企业基础信息
• 证券代码")))).
  { vm_compute. left. reflexivity. }
  split; [exact H|].
  exact (@cleaned_lines_lose_two_prefixes strict_markup _ _ H).
Defined.

Lemma startswith_app (p s : str) : startswith p (p ++ s) = true.
Proof.
  induction p as [|c p IH]; [reflexivity|]. cbn [app startswith].
  rewrite N.eqb_refl. exact IH.
Qed.

Lemma startswith_digit_free (c : N) (p s : str) :
  is_ascii_digit c = true -> digit_free s = true -> startswith (c :: p) s = false.
Proof.
  intros Hc Hs. destruct s as [|x s]; [reflexivity|]. cbn [startswith].
  cbn [digit_free forallb] in Hs. apply andb_true_iff in Hs. destruct Hs as [Hx _].
  destruct (N.eqb_spec c x) as [->|]; [|reflexivity].
  rewrite Hc in Hx. discriminate.
Qed.

Lemma contains_digit_free (c : N) (p s : str) :
  is_ascii_digit c = true -> digit_free s = true -> contains (c :: p) s = false.
Proof.
  intros Hc. induction s as [|x s IH]; intros Hs; [reflexivity|].
  cbn [contains]. rewrite startswith_digit_free by assumption.
  cbn [digit_free forallb] in Hs. apply andb_true_iff in Hs. destruct Hs as [_ Hs].
  apply IH. exact Hs.
Qed.

(** The digits of the supported years. *)
Lemma year_digits (y : Z) :
  In y years_regular ->
  exists a b : N,
    str_of_int y = [50; 48; a; b]%N /\
    is_ascii_digit a = true /\ is_ascii_digit b = true /\
    y = 2000 + 10 * (Z.of_N a - 48) + (Z.of_N b - 48) /\
    (48 <= a <= 57)%N /\ (48 <= b <= 57)%N.
Proof.
  unfold years_regular. cbn [seq List.map In].
  intros H.
  repeat (destruct H as [<- | H];
          [eexists _, _; split; [vm_compute; reflexivity|];
           repeat split; vm_compute; congruence|]).
  contradiction.
Qed.

Lemma year_in_column (y y' : Z) (suffix : str) :
  In y years_regular -> In y' years_regular -> digit_free suffix = true ->
  contains (str_of_int y) (str_of_int y' ++ suffix) = (y =? y').
Proof.
  intros Hy Hy' Hs.
  destruct (Z.eqb_spec y y') as [<- | Hne].
  { destruct (year_digits y Hy) as (a & b & -> & _).
    assert (E : startswith [50; 48; a; b]%N ([50; 48; a; b]%N ++ suffix) = true)
      by apply startswith_app.
    cbn [app] in E |- *. cbn [contains]. rewrite E. reflexivity. }
  destruct (year_digits y Hy) as (a & b & -> & Ha & Hb & Ey & Ra & Rb).
  destruct (year_digits y' Hy') as (c & d & -> & Hc & Hd & Ey' & Rc & Rd).
  assert (H2 : is_ascii_digit 50 = true) by reflexivity.
  assert (H0 : is_ascii_digit 48 = true) by reflexivity.
  cbn [app contains startswith].
  rewrite (contains_digit_free 50) by assumption.
  change (50 =? 50)%N with true. change (48 =? 48)%N with true.
  change (50 =? 48)%N with false. cbn [andb orb].
  assert (Hdiff : ((a =? c) && ((b =? d) && true))%N = false).
  { destruct (N.eqb_spec a c), (N.eqb_spec b d); cbn; try reflexivity.
    exfalso. apply Hne. subst. reflexivity. }
  rewrite Hdiff. cbn [orb].
  destruct suffix as [|x suffix].
  - cbn [startswith]. rewrite !andb_false_r. cbn [orb]. reflexivity.
  - cbn [startswith].
    cbn [digit_free forallb] in Hs. apply andb_true_iff in Hs. destruct Hs as [Hx _].
    assert (Fa : (a =? x)%N = false).
    { destruct (N.eqb_spec a x) as [->|]; [|reflexivity]. rewrite Ha in Hx. discriminate. }
    assert (F0 : (48 =? x)%N = false).
    { destruct (N.eqb_spec 48 x) as [<-|]; [|reflexivity]. discriminate. }
    rewrite Fa, F0. rewrite !andb_false_r. reflexivity.
Qed.

(** X13.  On columns named by a supported year followed by a suffix
    without digits (the layout [<year>_量化值]), in any order, the
    column found for a supported year is the column of that year, and
    no column is found for a year that has none. *)
Theorem column_of_year_regular (ys : list Z) (suffix : str) (y : Z) :
  digit_free suffix = true ->
  In y years_regular ->
  forallb (fun y' => existsb (Z.eqb y') years_regular) ys = true ->
  column_of_year (List.map (fun y' => str_of_int y' ++ suffix) ys) y
  = if existsb (Z.eqb y) ys then Some (str_of_int y ++ suffix) else None.
Proof.
  intros Hs Hy Hys. unfold column_of_year.
  induction ys as [|y0 ys IH]; [reflexivity|].
  cbn [forallb] in Hys. apply andb_true_iff in Hys. destruct Hys as [H0 Hys].
  assert (Hy0 : In y0 years_regular).
  { apply existsb_exists in H0. destruct H0 as (z & Hz & E).
    apply Z.eqb_eq in E. subst. exact Hz. }
  cbn [List.map find existsb].
  rewrite (year_in_column y y0 suffix Hy Hy0 Hs).
  destruct (Z.eqb_spec y y0) as [<- | Hne]; [reflexivity|].
  cbn [orb]. apply IH. exact Hys.
Qed.

Lemma column_of_year_regular_witness :
  digit_free (u8 "_量化值") = true /\
  In 2019 years_regular /\
  forallb (fun y' => existsb (Z.eqb y') years_regular) [2020; 2019] = true /\
  column_of_year (List.map (fun y' => str_of_int y' ++ u8 "_量化值") [2020; 2019]) 2019
  = if existsb (Z.eqb 2019) [2020; 2019]
    then Some (str_of_int 2019 ++ u8 "_量化值") else None.
Proof.
  assert (H1 : digit_free (u8 "_量化值") = true) by (vm_compute; reflexivity).
  assert (H2 : In 2019 years_regular).
  { unfold years_regular. cbn [seq List.map In]. do 10 right. left. reflexivity. }
  assert (H3 : forallb (fun y' => existsb (Z.eqb y') years_regular) [2020; 2019] = true)
    by (vm_compute; reflexivity).
  split; [exact H1|]. split; [exact H2|]. split; [exact H3|].
  exact (column_of_year_regular [2020; 2019] (u8 "_量化值") 2019 H1 H2 H3).
Defined.






